(** * MakeSense1: the [write_timestamp_calculate_risk] Lambda function

    A shallow embedding of [AWS Code/write_timestamp_calculate_risk.py] and
    the properties of its three steps: the derivation of roll and pitch, the
    write into the [entries] table and the recomputation of the device's risk
    factor in the [devices] table.

    Numbers.  A Python [float] or [decimal.Decimal] that is stored, compared
    or passed around is a rational number ([Q]) and its arithmetic is exact:
    binary and 28-digit decimal rounding, signed zeros, infinities and NaN are
    not represented.  The results of [math.atan2] and [math.sqrt] are real
    numbers ([R]); the source only ever feeds them to [round], which brings
    them back to an integer.

    Where a statement depends on the difference, its hypotheses say so:
    [number_limits] and [away_from_tie] keep to the axes and angles on which
    the doubles and the reals round alike, [within_limits] and [int_limits]
    to the values that boto3's serializer and DynamoDB take, [float_text]
    to the floats that [repr] prints back digit for digit.

    Storage.  The two DynamoDB tables are finite maps from their (string)
    partition key to an item, read and written in program order. *)

From Stdlib Require Import ZArith QArith Qabs Qreals Reals Psatz.
From Stdlib Require Import Machin.
From stdpp Require Import gmap strings list fin_maps sorting.

(** ** The floating-point kernel: [math.atan2], [math.sqrt], [round] *)

Module PyMath.

Local Open Scope R_scope.

(** [math.atan2(y, x)]: the angle of the point [(x, y)], in [(-pi, pi]].
    Over the reals a zero has no sign: this is [math.atan2] for [+0.0], and
    [math.atan2(0.0, -0.0)], which is [pi], is not represented. *)
Definition atan2 (y x : R) : R :=
  if Rlt_dec 0 x then atan (y / x)
  else if Rlt_dec x 0 then
    if Rle_dec 0 y then atan (y / x) + PI else atan (y / x) - PI
  else if Rlt_dec 0 y then PI / 2
  else if Rlt_dec y 0 then - (PI / 2)
  else 0.

(** [round(x)] with one argument: the nearest integer, ties to the even
    one. *)
Definition py_round (r : R) : Z :=
  let n := Int_part r in
  let f := r - IZR n in
  if Rlt_dec f (1 / 2) then n
  else if Rlt_dec (1 / 2) f then (n + 1)%Z
  else if Z.even n then n else (n + 1)%Z.

(** The constant of lines 35 and 36. *)
Definition deg : R := 573 / 10.

(** [round(abs(a) * 57.3)] *)
Definition to_degrees (a : R) : Z := py_round (Rabs a * deg).

End PyMath.

(** ** Python values and exceptions *)

(** The exceptions the handler can end with. *)
Inductive exn :=
  | KeyError | IndexError | TypeError | ValueError | ZeroDivisionError
  | InvalidOperation   (* decimal.InvalidOperation *)
  | ClientError.       (* botocore: the request was rejected by DynamoDB *)

Inductive result (A : Type) :=
  | Ok (a : A)
  | Raise (e : exn).
Arguments Ok {A} a.
Arguments Raise {A} e.

#[global] Instance result_ret : MRet result := fun _ a => Ok a.
#[global] Instance result_bind : MBind result := fun _ _ f m =>
  match m with Ok a => f a | Raise e => Raise e end.

(** The scalars of a decoded JSON event, and [decimal.Decimal], which is
    what boto3 hands back for every number it reads from a table.  A
    [float] is named by the numeral that [repr] prints for it.  A [bool] is
    an [int] for Python: [True] is [1] and [False] is [0] in comparisons and
    in arithmetic. *)
Inductive value :=
  | VNone
  | VInt (n : Z)
  | VFloat (q : Q)
  | VDec (q : Q)
  | VStr (s : string)
  | VBool (b : bool).

Abbreviation dict := (gmap string value).

(** [d[k]] *)
Definition getitem (d : dict) (k : string) : result value :=
  match d !! k with
  | Some v => Ok v
  | None => Raise KeyError
  end.

(** [l[i]] on a list *)
Definition getindex {A} (l : list A) (i : nat) : result A :=
  match l !! i with
  | Some x => Ok x
  | None => Raise IndexError
  end.

Definition num_of (v : value) : option Q :=
  match v with
  | VInt n => Some (inject_Z n)
  | VFloat q | VDec q => Some q
  | VBool b => Some (inject_Z (Z.b2z b))
  | VNone | VStr _ => None
  end.

(** A [bool] operand of an arithmetic operation is the [int] it stands
    for. *)
Definition unbool (v : value) : value :=
  match v with
  | VBool b => VInt (Z.b2z b)
  | _ => v
  end.

Definition Qlt_bool (p q : Q) : bool := negb (Qle_bool q p).

(** [a == b] *)
Definition py_eq (a b : value) : bool :=
  match a, b with
  | VNone, VNone => true
  | VStr s, VStr t => String.eqb s t
  | _, _ =>
      match num_of a, num_of b with
      | Some p, Some q => Qeq_bool p q
      | _, _ => false
      end
  end.

(** [a < b], as [list.sort] asks it of two keys *)
Definition py_lt (a b : value) : result bool :=
  match a, b with
  | VStr s, VStr t => Ok (String.ltb s t)
  | _, _ =>
      match num_of a, num_of b with
      | Some p, Some q => Ok (Qlt_bool p q)
      | _, _ => Raise TypeError
      end
  end.

(** The numeric tower of [+], [-], [*]: [int] with [int] stays [int], a
    [float] operand makes a [float], a [Decimal] mixes with [int] but not
    with [float]. *)
Definition arith (fz : Z -> Z -> Z) (fq : Q -> Q -> Q) (a b : value)
  : result value :=
  match unbool a, unbool b with
  | VInt m, VInt n => Ok (VInt (fz m n))
  | VInt m, VFloat q => Ok (VFloat (fq (inject_Z m) q))
  | VFloat p, VInt n => Ok (VFloat (fq p (inject_Z n)))
  | VFloat p, VFloat q => Ok (VFloat (fq p q))
  | VInt m, VDec q => Ok (VDec (fq (inject_Z m) q))
  | VDec p, VInt n => Ok (VDec (fq p (inject_Z n)))
  | VDec p, VDec q => Ok (VDec (fq p q))
  | _, _ => Raise TypeError
  end.

Fixpoint str_repeat (s : string) (n : nat) : string :=
  match n with
  | O => EmptyString
  | S n' => String.append s (str_repeat s n')
  end.

(** [a + b] *)
Definition py_add (a b : value) : result value :=
  match a, b with
  | VStr s, VStr t => Ok (VStr (String.append s t))
  | _, _ => arith Z.add Qplus a b
  end.

(** [a - b] *)
Definition py_sub (a b : value) : result value := arith Z.sub Qminus a b.

(** [a * b] *)
Definition py_mul (a b : value) : result value :=
  match unbool a, unbool b with
  | VStr s, VInt n | VInt n, VStr s => Ok (VStr (str_repeat s (Z.to_nat n)))
  | _, _ => arith Z.mul Qmult a b
  end.

(** [a / b]: true division, never an [int] *)
Definition py_truediv (a b : value) : result value :=
  match num_of a, num_of b with
  | Some p, Some q =>
      match a, b with
      | VDec _, VFloat _ | VFloat _, VDec _ => Raise TypeError
      | _, _ =>
          if Qeq_bool q 0 then Raise ZeroDivisionError
          else match a, b with
               | VDec _, _ | _, VDec _ => Ok (VDec (p / q))
               | _, _ => Ok (VFloat (p / q))
               end
      end
  | _, _ => Raise TypeError
  end.

(** [-a] *)
Definition py_neg (a : value) : result value :=
  match a with
  | VInt n => Ok (VInt (- n))
  | VFloat q => Ok (VFloat (- q))
  | VDec q => Ok (VDec (- q))
  | VBool b => Ok (VInt (- Z.b2z b))
  | VNone | VStr _ => Raise TypeError
  end.

(** [abs(a)] *)
Definition py_abs (a : value) : result value :=
  match a with
  | VInt n => Ok (VInt (Z.abs n))
  | VFloat q => Ok (VFloat (Qabs q))
  | VDec q => Ok (VDec (Qabs q))
  | VBool b => Ok (VInt (Z.b2z b))
  | VNone | VStr _ => Raise TypeError
  end.

(** The conversion to a C double that [math.atan2] and [math.sqrt] apply to
    their arguments.  The number is kept as it is: the rounding of an [int]
    of more than 53 bits and the [OverflowError] of one beyond the doubles
    are not represented. *)
Definition float_of (v : value) : result R :=
  match num_of v with
  | Some q => Ok (Q2R q)
  | None => Raise TypeError
  end.

(** [math.sqrt(v)] *)
Definition math_sqrt (v : value) : result R :=
  match num_of v with
  | Some q => if Qlt_bool q 0 then Raise ValueError else Ok (sqrt (Q2R q))
  | None => Raise TypeError
  end.

(** What [repr] prints: a numeral, kept as the number it spells, or any
    other text. *)
Inductive text :=
  | Numeral (q : Q)
  | Other.

(** [repr(v)]: an [int] and a [float] print as a numeral; [None], a quoted
    string, [Decimal('...')], [True] and [False] do not. *)
Definition repr (v : value) : text :=
  match v with
  | VInt n => Numeral (inject_Z n)
  | VFloat q => Numeral q
  | VNone | VDec _ | VStr _ | VBool _ => Other
  end.

(** [decimal.Decimal(t)] of a text *)
Definition Decimal (t : text) : result value :=
  match t with
  | Numeral q => Ok (VDec q)
  | Other => Raise InvalidOperation
  end.

(** ** The DynamoDB tables, as boto3 presents them *)

(** Attribute values: a number (type N), a string (type S), NULL or a
    boolean (type BOOL). *)
Inductive attr :=
  | AN (q : Q)
  | AS (s : string)
  | ANULL
  | ABOOL (b : bool).

Abbreviation item := (gmap string attr).

(** boto3's [TypeSerializer]: [int] and [Decimal] become N, [str] becomes S,
    [None] becomes NULL, a [bool] becomes BOOL, and a [float] is refused.
    The serializer's bound of 38 digits and the exponents it traps are not
    represented. *)
Definition attr_of (v : value) : option attr :=
  match v with
  | VNone => Some ANULL
  | VInt n => Some (AN (inject_Z n))
  | VDec q => Some (AN q)
  | VStr s => Some (AS s)
  | VBool b => Some (ABOOL b)
  | VFloat _ => None
  end.

Definition serialize (v : value) : result attr :=
  match attr_of v with
  | Some a => Ok a
  | None => Raise TypeError
  end.

Definition serialize_item (d : dict) : result item :=
  if decide (map_Forall (fun _ v => is_Some (attr_of v)) d)
  then Ok (omap attr_of d)
  else Raise TypeError.

(** boto3's [TypeDeserializer]: every N comes back as a [Decimal]. *)
Definition deserialize (a : attr) : value :=
  match a with
  | AN q => VDec q
  | AS s => VStr s
  | ANULL => VNone
  | ABOOL b => VBool b
  end.

(** Equality of two attribute values in a filter expression: same type and
    same value. *)
Definition attr_eqb (a b : attr) : bool :=
  match a, b with
  | AN p, AN q => Qeq_bool p q
  | AS s, AS t => String.eqb s t
  | ANULL, ANULL => true
  | ABOOL b, ABOOL c => Bool.eqb b c
  | _, _ => false
  end.

(** [Attr(name).eq(a)] on an item; an item without the attribute does not
    match. *)
Definition Attr_eq (name : string) (a : attr) (it : item) : bool :=
  match it !! name with
  | Some b => attr_eqb b a
  | None => false
  end.

(** The two tables of lines 15 and 16.  Modelled from the spec: their key
    schema, which is fixed when the tables are created and not in the source:
    [entries] is keyed by the string [entryUUID], [devices] by the string
    [deviceID]. *)
Record store := Store {
  entries_table : gmap string item;
  devices_table : gmap string item
}.

(** A computation of the handler: it reads and writes the tables and ends
    with a value or an exception; what was written before an exception stays
    written. *)
Definition M (A : Type) : Type := store -> result A * store.

#[global] Instance M_ret : MRet M := fun _ a st => (Ok a, st).
#[global] Instance M_bind : MBind M := fun _ _ f m st =>
  match m st with
  | (Ok a, st') => f a st'
  | (Raise e, st') => (Raise e, st')
  end.

Definition lift {A} (r : result A) : M A := fun st => (r, st).

(** The key of a request: the attribute must be there and of type S.  That
    DynamoDB refuses an empty key is not represented. *)
Definition key_of (name : string) (it : item) : result string :=
  match it !! name with
  | Some (AS s) => Ok s
  | _ => Raise ClientError
  end.

(** [entries_table.put_item(Item=d)]: the item replaces whatever the table
    holds under its key. *)
Definition put_item (d : dict) : M unit := fun st =>
  match serialize_item d with
  | Raise e => (Raise e, st)
  | Ok it =>
      match key_of "entryUUID" it with
      | Raise e => (Raise e, st)
      | Ok uuid =>
          (Ok tt, Store (<[uuid := it]> (entries_table st)) (devices_table st))
      end
  end.

(** [devices_table.update_item(Key={'deviceID': key},
      UpdateExpression='SET riskFactor = :v1, lastUpdated = :v2', ...)]:
    the two attributes are set on the row of that key, which is created
    with its key alone when the table has none. *)
Definition update_item (key v1 v2 : value) : M unit := fun st =>
  match serialize_item {[ "deviceID" := key ]},
        serialize_item (<[":v2" := v2]> {[ ":v1" := v1 ]}) with
  | Ok k, Ok vs =>
      match key_of "deviceID" k, vs !! ":v1", vs !! ":v2" with
      | Ok dev, Some a1, Some a2 =>
          let row := default k (devices_table st !! dev) in
          (Ok tt,
           Store (entries_table st)
                 (<[dev := <["lastUpdated" := a2]> (<["riskFactor" := a1]> row)]>
                    (devices_table st)))
      | Raise e, _, _ => (Raise e, st)
      | _, _, _ => (Raise ClientError, st)
      end
  | Raise e, _ | _, Raise e => (Raise e, st)
  end.

Section Handler.

(** The order in which a Scan walks a table.  DynamoDB does not specify it;
    it is a parameter of the model. *)
Variable scan_order : gmap string item -> list item.

(** [entries_table.scan(Limit=10, FilterExpression=
      Attr('deviceID').eq(device_id) & Attr('status').eq(0))['Items']]:
    the first ten items of the walk are evaluated, and those of them that
    pass the filter are returned. *)
Definition scan_items (dev : attr) (t : gmap string item) : list dict :=
  fmap (M := list) (fmap (M := gmap string) deserialize)
    (List.filter (fun it => Attr_eq "deviceID" dev it && Attr_eq "status" (AN 0) it)
       (take 10 (scan_order t))).

Definition scan (device_id : value) : M (list dict) := fun st =>
  match serialize device_id with
  | Raise e => (Raise e, st)
  | Ok dev => (Ok (scan_items dev (entries_table st)), st)
  end.

(** [array.sort(key=...)]: [list.sort] is stable and asks only [<] of the
    keys, which it computes for the whole list first.  The model is the
    stable insertion sort; a comparison that raises ends the sort. *)
Fixpoint insert_sorted (x : value * dict) (l : list (value * dict))
  : result (list (value * dict)) :=
  match l with
  | [] => Ok [x]
  | y :: l' =>
      b ← py_lt (fst y) (fst x);
      if (b : bool) then r ← insert_sorted x l'; Ok (y :: r) else Ok (x :: l)
  end.

Fixpoint sort_pairs (l : list (value * dict)) : result (list (value * dict)) :=
  match l with
  | [] => Ok []
  | x :: l' => s ← sort_pairs l'; insert_sorted x s
  end.

Fixpoint keyed (key : dict -> result value) (l : list dict)
  : result (list (value * dict)) :=
  match l with
  | [] => Ok []
  | x :: l' => k ← key x; r ← keyed key l'; Ok ((k, x) :: r)
  end.

Definition sort_by (key : dict -> result value) (array : list dict)
  : result (list dict) :=
  ks ← keyed key array;
  s ← sort_pairs ks;
  Ok (List.map snd s).

(** Lines 32 to 36: roll and pitch, in degrees. *)
Definition roll_pitch (event : dict) : result (Z * Z) :=
  x ← getitem event "accl_x";
  y ← getitem event "accl_z";
  z ← getitem event "accl_y";
  fy ← float_of y;
  fz ← float_of z;
  let roll := PyMath.py_round (Rabs (PyMath.atan2 fy fz) * PyMath.deg) in
  nx ← py_neg x;
  yy ← py_mul y y;
  zz ← py_mul z z;
  sq ← py_add yy zz;
  r ← math_sqrt sq;
  fnx ← float_of nx;
  let pitch := PyMath.py_round (Rabs (PyMath.atan2 fnx r) * PyMath.deg) in
  Ok (roll, pitch).

(** [dict] displays: the pairs are entered from left to right. *)
Definition dict_of (l : list (string * value)) : dict :=
  foldl (fun d kv => <[kv.1 := kv.2]> d) ∅ l.

Definition insert_entry (event : dict) (roll pitch timestamp : Z) : M unit :=
  status ← lift (getitem event "status");
  if py_eq status (VInt (-1)) then
    (* Sensor has an issue, do not add other parameters *)
    entryUUID ← lift (getitem event "entryUUID");
    status ← lift (getitem event "status");
    deviceID ← lift (getitem event "deviceID");
    put_item (dict_of [("entryUUID", entryUUID); ("status", status);
                       ("deviceID", deviceID);
                       ("createdDate", VInt timestamp)])
  else
    status ← lift (getitem event "status");
    if py_eq status (VInt 0) then
      (* Sensor ok *)
      entryUUID ← lift (getitem event "entryUUID");
      status ← lift (getitem event "status");
      deviceID ← lift (getitem event "deviceID");
      accl_x ← lift (getitem event "accl_x" ≫= fun v => Decimal (repr v));
      accl_y ← lift (getitem event "accl_y" ≫= fun v => Decimal (repr v));
      accl_z ← lift (getitem event "accl_z" ≫= fun v => Decimal (repr v));
      gyro_x ← lift (getitem event "gyro_x" ≫= fun v => Decimal (repr v));
      gyro_y ← lift (getitem event "gyro_y" ≫= fun v => Decimal (repr v));
      gyro_z ← lift (getitem event "gyro_z" ≫= fun v => Decimal (repr v));
      rain ← lift (getitem event "rain");
      soil ← lift (getitem event "soil");
      put_item (dict_of [("entryUUID", entryUUID); ("status", status);
                         ("deviceID", deviceID);
                         ("accl_x", accl_x); ("accl_y", accl_y);
                         ("accl_z", accl_z);
                         ("gyro_x", gyro_x); ("gyro_y", gyro_y);
                         ("gyro_z", gyro_z);
                         ("roll", VInt roll); ("pitch", VInt pitch);
                         ("rain", rain); ("soil", soil);
                         ("createdDate", VInt timestamp)])
    else mret tt.

(** [soil/1023 + (roll/180 + pitch/90)/2], the [k] of lines 92, 95 and
    101, on three operands evaluated by the caller. *)
Definition k_formula (soil roll pitch : result value) : result value :=
  s ← soil;
  a ← py_truediv s (VInt 1023);
  r ← roll;
  b ← py_truediv r (VInt 180);
  p ← pitch;
  c ← py_truediv p (VInt 90);
  bc ← py_add b c;
  h ← py_truediv bc (VInt 2);
  py_add a h.

(** The [k] of a retrieved entry [x] (lines 92 and 95). *)
Definition k_entry (x : dict) : result value :=
  k_formula (getitem x "soil") (getitem x "roll") (getitem x "pitch").

(** The [k] of the incoming event (line 101). *)
Definition k_event (event : dict) (roll pitch : Z) : result value :=
  kf ← k_formula (getitem event "soil") (Ok (VInt roll)) (Ok (VInt pitch));
  Decimal (repr kf).

(** Lines 89 to 106: the risk factor that the retrieved [array] gives, [0]
    when it has at most two items. *)
Definition risk_factor_of (event : dict) (roll pitch : Z) (array : list dict)
  : result value :=
  let risk_factor := VInt 0 in
  if (2 <? length array)%nat then
    (* The database has enough data *)
    array ← sort_by (fun x => getitem x "createdDate") array;
    e0 ← getindex array 0;
    k1 ← k_entry e0;
    e1 ← getindex array 1;
    k2 ← k_entry e1;
    diff ← py_sub k1 k2;
    d ← py_abs diff;
    k ← k_event event roll pitch;
    py_mul d k
  else Ok risk_factor.

Definition calculate_riskfactor (event : dict) (roll pitch timestamp : Z)
  : M unit :=
  (* First step: retrieve deviceID from event *)
  status ← lift (getitem event "status");
  if negb (py_eq status (VInt 0)) then mret tt
  else
    device_id ← lift (getitem event "deviceID");
    (* Second step: get 2 previous valid entries and compute *)
    array ← scan device_id;
    risk_factor ← lift (risk_factor_of event roll pitch array);
    (* Third step: Write results to database *)
    update_item device_id risk_factor (VInt timestamp).

(** The handler; [epochtime] is the clock reading of lines 24 and 25. *)
Definition lambda_handler (event : dict) (epochtime : Z) : M unit :=
  '(roll, pitch) ← lift (roll_pitch event);
  _ ← insert_entry event roll pitch epochtime;
  calculate_riskfactor event roll pitch epochtime.

End Handler.

(** ** The clock *)

(** Lines 24 and 25: [round(time.mktime(dts.timetuple()) + dts.microsecond/1e6)].
    [time.mktime] returns the whole seconds [secs] of the clock reading and
    [micro] is its [microsecond] field. *)
Definition epochtime (secs micro : Z) : Z :=
  PyMath.py_round (IZR secs + IZR micro / 1000000).

(** ** Specification vocabulary *)

(** A JSON number of the event: an [int] or a [float]. *)
Definition json_number (v : value) : bool :=
  match v with
  | VInt _ | VFloat _ => true
  | VNone | VDec _ | VStr _ | VBool _ => false
  end.

(** The composite feature of section 4.3, on rationals. *)
Definition risk_k (soil roll pitch : Q) : Q :=
  (soil / 1023 + (roll / 180 + pitch / 90) / 2)%Q.

(** The number a value stands for, as a rational and as a real. *)
Definition number_of (v : value) : Q :=
  match num_of v with
  | Some q => q
  | None => 0%Q
  end.

Definition real_of (v : value) : R :=
  match num_of v with
  | Some q => Q2R q
  | None => 0%R
  end.

(** A numeric field of a retrieved entry. *)
Definition qfield (x : dict) (name : string) : Q :=
  match x !! name with
  | Some v => number_of v
  | None => 0%Q
  end.

(** The [k] of a retrieved entry. *)
Definition entry_k (x : dict) : Q :=
  risk_k (qfield x "soil") (qfield x "roll") (qfield x "pitch").

(** Ascending [createdDate]. *)
Definition by_date (a b : dict) : Prop :=
  (qfield a "createdDate" <= qfield b "createdDate")%Q.

(** A retrieved entry the aggregation can use: the four fields it reads
    are numbers, which boto3 returns as [Decimal]. *)
Definition is_decimal (o : option value) : bool :=
  match o with
  | Some (VDec _) => true
  | _ => false
  end.

Definition wf_entry (x : dict) : bool :=
  forallb (fun name => is_decimal (x !! name))
    ["createdDate"; "soil"; "roll"; "pitch"].

(** The item the Entry Writer stores for a status-OK event. *)
Definition ok_entry (event : dict) (uuid dev : string)
    (soil roll pitch ts : Z) : item :=
  list_to_map
    [("entryUUID", AS uuid); ("status", AN 0); ("deviceID", AS dev);
     ("accl_x", AN (qfield event "accl_x"));
     ("accl_y", AN (qfield event "accl_y"));
     ("accl_z", AN (qfield event "accl_z"));
     ("gyro_x", AN (qfield event "gyro_x"));
     ("gyro_y", AN (qfield event "gyro_y"));
     ("gyro_z", AN (qfield event "gyro_z"));
     ("roll", AN (inject_Z roll)); ("pitch", AN (inject_Z pitch));
     ("rain", AN (qfield event "rain")); ("soil", AN (inject_Z soil));
     ("createdDate", AN (inject_Z ts))].

(** A status-OK event as section 6 of the spec describes it: string
    identifiers, numeric axes, integer [rain] and [soil]. *)
Definition is_json_number (o : option value) : bool :=
  match o with
  | Some v => json_number v
  | None => false
  end.

Definition is_int (o : option value) : bool :=
  match o with
  | Some (VInt _) => true
  | _ => false
  end.

Record valid_ok_event (event : dict) (uuid dev : string) (soil : Z) : Prop := {
  ev_status : event !! "status" = Some (VInt 0);
  ev_uuid : event !! "entryUUID" = Some (VStr uuid);
  ev_dev : event !! "deviceID" = Some (VStr dev);
  ev_axes :
    forallb (fun name => is_json_number (event !! name))
      ["accl_x"; "accl_y"; "accl_z"; "gyro_x"; "gyro_y"; "gyro_z"] = true;
  ev_rain : is_int (event !! "rain") = true;
  ev_soil : event !! "soil" = Some (VInt soil)
}.

(** The devices table once the row of [dev] has been upserted with the risk
    factor [rf] at time [ts]: the row is created with its key when the table
    has none, and keeps every other attribute it had. *)
Definition upserted (dev : string) (rf : attr) (ts : Z) (t : gmap string item)
  : gmap string item :=
  <[dev := <["lastUpdated" := AN (inject_Z ts)]>
             (<["riskFactor" := rf]>
                (default {["deviceID" := AS dev]} (t !! dev)))]> t.

(** The filter of the retrieval: a status-OK entry of device [dev]. *)
Definition matching (dev : string) (it : item) : bool :=
  Attr_eq "deviceID" (AS dev) it && Attr_eq "status" (AN 0) it.

(** The status-OK entries of device [dev] held by a table. *)
Definition matching_entries (dev : string) (t : gmap string item) : list item :=
  List.filter (matching dev) (map_to_list t).*2.

(** One scan order: the enumeration of the finite map. *)
Definition scan_all (t : gmap string item) : list item := (map_to_list t).*2.

(** A value that is a number for Python's arithmetic. *)
Definition is_number (o : option value) : bool :=
  match o with
  | Some v => match num_of v with Some _ => true | None => false end
  | None => false
  end.

(** A sort key paired with its entry: the key is the entry's
    [createdDate]. *)
Definition dated (p : value * dict) : Prop :=
  exists c, fst p = VDec c /\ snd p !! "createdDate" = Some (VDec c).

(** The order of the keyed pairs the sort works on. *)
Definition key_le (p q : value * dict) : Prop := by_date (snd p) (snd q).

(** What boto3 can store: anything but a [float]. *)
Definition storable (o : option value) : bool :=
  match o with
  | Some v => match attr_of v with Some _ => true | None => false end
  | None => false
  end.

Definition is_str (o : option value) : bool :=
  match o with
  | Some (VStr _) => true
  | _ => false
  end.

(** The status-OK events the Entry Writer stores: a string [entryUUID], six
    axes that [repr] prints as numerals, and a [status], [deviceID], [rain]
    and [soil] that are not floats. *)
Definition accepted_ok (event : dict) : bool :=
  is_str (event !! "entryUUID") && storable (event !! "status")
  && storable (event !! "deviceID")
  && forallb (fun name => is_json_number (event !! name))
       ["accl_x"; "accl_y"; "accl_z"; "gyro_x"; "gyro_y"; "gyro_z"]
  && storable (event !! "rain") && storable (event !! "soil").

(** The effect of the Entry Writer on the tables: it raises, or it leaves
    them alone, or it puts one item under one key. *)
Definition written (w : result (option (string * item))) (st : store)
  : result unit * store :=
  match w with
  | Raise e => (Raise e, st)
  | Ok None => (Ok tt, st)
  | Ok (Some (u, it)) =>
      (Ok tt, Store (<[u := it]> (entries_table st)) (devices_table st))
  end.

(** No two entries of a sample carry the same [createdDate]. *)
Definition distinct_dates (l : list dict) : Prop :=
  forall a b, a ∈ l -> b ∈ l ->
    (qfield a "createdDate" == qfield b "createdDate")%Q -> a = b.

(** The ranges that the comment of lines 70 to 73 gives for the three
    features of an entry. *)
Definition in_range (x : dict) : bool :=
  Qle_bool 0 (qfield x "soil") && Qle_bool (qfield x "soil") 1023
  && Qle_bool 0 (qfield x "roll") && Qle_bool (qfield x "roll") 180
  && Qle_bool 0 (qfield x "pitch") && Qle_bool (qfield x "pitch") 90.

(** A check of [distinct_dates]: every entry's date differs from those of
    the entries after it. *)
Fixpoint dates_differ (l : list dict) : bool :=
  match l with
  | [] => true
  | a :: l' =>
      forallb (fun b => negb (Qeq_bool (qfield a "createdDate")
                                       (qfield b "createdDate"))) l'
      && dates_differ l'
  end.

(** A scan walks items of the table and nothing else. *)
Definition scan_sound (scan_order : gmap string item -> list item) : Prop :=
  forall t it, it ∈ scan_order t -> exists u, t !! u = Some it.

(** *** Where the exact numbers stand for the program's *)

(** The arithmetic above is exact, the program's is in doubles.  The two
    round to the same integer unless the exact value is this close to a
    tie: the double evaluation of lines 35 and 36 is within [1e-13] of the
    exact one when no product overflows or underflows. *)
Definition tie_margin : R := (1 / 1000000000)%R.

Definition away_from_tie (r : R) : Prop :=
  forall n : Z, (tie_margin < Rabs (r - (IZR n + 1 / 2)))%R.

(** Numbers well inside what DynamoDB stores (magnitudes from [1e-130] to
    [1e126]): zero, or a magnitude between [1e-100] and [1e100].  Their
    squares neither overflow nor underflow a double. *)
Definition number_limits (q : Q) : bool :=
  Qeq_bool q 0
  || (Qle_bool (Qmake 1 (10 ^ 100)) (Qabs q)
      && Qle_bool (Qabs q) (inject_Z (10 ^ 100))).

(** An [int] the serializer takes: at most 38 digits. *)
Definition int_limits (n : Z) : bool := (Z.abs n <? 10 ^ 38)%Z.

(** A key of a table: not empty, and well under the 2048 bytes of a
    partition key. *)
Definition key_limits (s : string) : bool :=
  negb (String.eqb s "") && (String.length s <=? 1024)%nat.

(** A value of the event that the serializer and the service take when its
    type is one they store: an [int] of at most 38 digits, a float within
    [number_limits], a string that is not empty and of moderate length.  A
    decoded JSON event holds no [Decimal]. *)
Definition value_limits (v : value) : bool :=
  match v with
  | VInt n => int_limits n
  | VFloat q => number_limits q
  | VStr s => key_limits s
  | VNone | VBool _ => true
  | VDec _ => false
  end.

Definition within_limits (event : dict) : bool :=
  match event !! "entryUUID" with Some (VStr u) => key_limits u | _ => true end
  && match event !! "deviceID" with Some (VStr d) => key_limits d | _ => true end
  && forallb (fun name => match event !! name with
                          | Some v => value_limits v
                          | None => true
                          end)
       ["entryUUID"; "status"; "deviceID"; "accl_x"; "accl_y"; "accl_z";
        "gyro_x"; "gyro_y"; "gyro_z"; "rain"; "soil"].

(** [n / d] rounded to the nearest integer, a tie going to the even one
    ([0 < d]). *)
Definition round_half_even (n d : Z) : Z :=
  let q := (n / d)%Z in
  let r := (n mod d)%Z in
  if (2 * r <? d)%Z then q
  else if (d <? 2 * r)%Z then (q + 1)%Z
  else if Z.even q then q else (q + 1)%Z.

(** The binary floating-point value of the float that the numeral [q]
    names: [q] rounded to a double, that is to 53 significant bits, or to a
    multiple of [2^-1074] below the normal range (numerals beyond the
    largest double are not considered). *)
Definition binary_of (q : Q) : Q :=
  let n := Z.abs (Qnum q) in
  let d := Zpos (Qden q) in
  if (n =? 0)%Z then 0%Q
  else
    let t := (Z.log2 n - Z.log2 d)%Z in
    let ge_pow := if (0 <=? t)%Z then (d * 2 ^ t <=? n)%Z
                  else (d <=? n * 2 ^ (- t))%Z in
    let fl := if ge_pow then t else (t - 1)%Z in
    let e := Z.max (fl - 52) (-1074) in
    let m := if (0 <=? e)%Z then round_half_even n (d * 2 ^ e)
             else round_half_even (n * 2 ^ (- e)) d in
    let sm := (Z.sgn (Qnum q) * m)%Z in
    Qred (if (0 <=? e)%Z then inject_Z (sm * 2 ^ e)
          else Qmake sm (Z.to_pos (2 ^ (- e)))).

(** A numeral that names a float and is printed back by [repr]: a decimal
    of at most 15 significant digits in the range of the normal doubles. *)
Definition float_text (q : Q) : bool :=
  existsb (fun k : nat =>
             let e := (Z.of_nat k - 300)%Z in
             let c := Qred (q / Qpower 10 e) in
             Pos.eqb (Qden c) 1 && (Z.abs (Qnum c) <? 10 ^ 15)%Z)
    (seq 0 591).

(** A table whose status-OK entries the aggregation can use and whose
    features are in the ranges of lines 70 to 73. *)
Definition tame_store (t : gmap string item) : Prop :=
  forall u it, t !! u = Some it -> Attr_eq "status" (AN 0) it = true ->
               wf_entry (deserialize <$> it) = true /\
               in_range (deserialize <$> it) = true.

(** ** Scenarios *)

(** The end-to-end scenario of the spec's section 8: device [D1] has three
    earlier status-OK entries, and a new status-OK event arrives whose axes
    give a roll of 90 and a pitch of 45 degrees. *)
Definition prior_entry (dev : string) (soil roll pitch ts : Z) : item :=
  list_to_map
    [("deviceID", AS dev); ("status", AN 0); ("soil", AN (inject_Z soil));
     ("roll", AN (inject_Z roll)); ("pitch", AN (inject_Z pitch));
     ("createdDate", AN (inject_Z ts))].

Definition demo_store : store :=
  Store (list_to_map [("e1", prior_entry "D1" 100 10 5 1000);
                      ("e2", prior_entry "D1" 200 20 10 2000);
                      ("e3", prior_entry "D1" 900 170 80 3000)]) ∅.

Definition demo_event : dict :=
  dict_of [("entryUUID", VStr "e4"); ("status", VInt 0); ("deviceID", VStr "D1");
           ("accl_x", VFloat 1); ("accl_y", VFloat 0); ("accl_z", VFloat 1);
           ("gyro_x", VFloat 0); ("gyro_y", VFloat 0); ("gyro_z", VFloat 0);
           ("rain", VInt 3); ("soil", VInt 500)].

Definition demo_sample : list dict :=
  scan_items scan_all (AS "D1")
    (<["e4" := ok_entry demo_event "e4" "D1" 500 90 45 4000]>
       (entries_table demo_store)).

(** The same device with one, and with two, earlier entries. *)
Definition one_prior_store : store :=
  Store (list_to_map [("e1", prior_entry "D1" 100 10 5 1000)]) ∅.

Definition two_prior_store : store :=
  Store (list_to_map [("e1", prior_entry "D1" 100 10 5 1000);
                      ("e2", prior_entry "D1" 200 20 10 2000)]) ∅.

(** The same reading reported with a sensor fault, with a status the code
    does not know, and without its [accl_x]. *)
Definition error_event : dict := <["status" := VInt (-1)]> demo_event.

Definition unknown_event : dict := <["status" := VInt 5]> demo_event.

Definition broken_event : dict := delete "accl_x" demo_event.

(** The scenario's reading with the sensor turned over: [accl_x] and
    [accl_z] negated. *)
Definition mirrored_event : dict :=
  <["accl_x" := VFloat (-1)]> (<["accl_z" := VFloat (-1)]> demo_event).

(** The device with two earlier entries and one stale record that carries
    no [createdDate]. *)
Definition stale_store : store :=
  Store (list_to_map [("e0", list_to_map [("deviceID", AS "D1"); ("status", AN 0)]);
                      ("e1", prior_entry "D1" 100 10 5 1000);
                      ("e2", prior_entry "D1" 200 20 10 2000)]) ∅.

(** The sensor-fault event with a JSON [true] for [accl_x]. *)
Definition boolean_axis_event : dict := <["accl_x" := VBool true]> error_event.

(** The scenario's event with a fractional [rain]. *)
Definition float_rain_event : dict := <["rain" := VFloat (1 # 2)]> demo_event.

(** The scenario's event with a reading of [0.1] on [accl_x]. *)
Definition tenth_event : dict := <["accl_x" := VFloat (1 # 10)]> demo_event.

(** The scenario's tables once its event has been handled at time 4000. *)
Definition delivered_store : store :=
  Store (<["e4" := ok_entry demo_event "e4" "D1" 500 90 45 4000]>
           (entries_table demo_store)) ∅.

(** * Properties *)

(** ** The floating-point kernel *)

Module PyMathFacts.
Import PyMath.
Local Open Scope R_scope.

Lemma PI_upper : PI < 315 / 100.
Proof.
  destruct (PI_2_3_7_ineq 1) as [_ H].
  unfold sum_f_R0, tg_alt, PI_2_3_7_tg, Ratan_seq in H. simpl in H.
  lra.
Qed.

Lemma PI_lower : 313 / 100 < PI.
Proof.
  destruct (PI_2_3_7_ineq 0) as [H _].
  unfold sum_f_R0, tg_alt, PI_2_3_7_tg, Ratan_seq in H. simpl in H.
  lra.
Qed.

Lemma py_round_near (r : R) :
  IZR (py_round r) - 1 / 2 <= r <= IZR (py_round r) + 1 / 2.
Proof.
  unfold py_round.
  destruct (base_Int_part r) as [Hlo Hhi].
  set (n := Int_part r) in *.
  destruct (Rlt_dec (r - IZR n) (1 / 2)) as [Hlt | Hge].
  - lra.
  - destruct (Rlt_dec (1 / 2) (r - IZR n)) as [Hgt | Hle].
    + rewrite plus_IZR. lra.
    + destruct (Z.even n); [lra | rewrite plus_IZR; lra].
Qed.

Lemma py_round_range (r : R) (lo hi : Z) :
  IZR lo - 1 / 2 < r -> r < IZR hi + 1 / 2 ->
  (lo <= py_round r <= hi)%Z.
Proof.
  intros Hlo Hhi.
  destruct (py_round_near r) as [H1 H2].
  split.
  - apply Z.lt_succ_r, lt_IZR. rewrite succ_IZR. lra.
  - apply Z.lt_succ_r, lt_IZR. rewrite succ_IZR. lra.
Qed.

Lemma py_round_IZR (n : Z) : py_round (IZR n) = n.
Proof.
  assert (H : (n <= py_round (IZR n) <= n)%Z) by (apply py_round_range; lra).
  lia.
Qed.

Lemma atan_nonpos (t : R) : t <= 0 -> atan t <= 0.
Proof.
  intros [Ht | ->]; [| rewrite atan_0; lra].
  apply atan_increasing in Ht. rewrite atan_0 in Ht. lra.
Qed.

Lemma atan_pos (t : R) : 0 < t -> 0 < atan t.
Proof. intros Ht. apply atan_increasing in Ht. now rewrite atan_0 in Ht. Qed.

(** [atan2] stays within half a turn; *)
Lemma atan2_abs_le_PI (y x : R) : Rabs (atan2 y x) <= PI.
Proof.
  pose proof PI_RGT_0 as Hpi. unfold atan2.
  destruct (Rlt_dec 0 x) as [Hx | Hx].
  { pose proof (atan_bound (y / x)). apply Rabs_le. lra. }
  destruct (Rlt_dec x 0) as [Hx' | Hx'].
  - pose proof (atan_bound (y / x)) as Hb.
    destruct (Rle_dec 0 y) as [Hy | Hy].
    + assert (y / x <= 0).
      { unfold Rdiv. apply Rinv_lt_0_compat in Hx'. nra. }
      pose proof (atan_nonpos _ H). apply Rabs_le. lra.
    + assert (0 < y / x).
      { unfold Rdiv. apply Rinv_lt_0_compat in Hx'. nra. }
      pose proof (atan_pos _ H). apply Rabs_le. lra.
  - destruct (Rlt_dec 0 y); [apply Rabs_le; lra |].
    destruct (Rlt_dec y 0); apply Rabs_le; lra.
Qed.

(** and within a quarter turn when the abscissa is not negative. *)
Lemma atan2_abs_le_PI2 (y x : R) : 0 <= x -> Rabs (atan2 y x) <= PI / 2.
Proof.
  intros Hx0. pose proof PI_RGT_0 as Hpi. unfold atan2.
  destruct (Rlt_dec 0 x) as [Hx | Hx].
  { pose proof (atan_bound (y / x)). apply Rabs_le. lra. }
  destruct (Rlt_dec x 0) as [Hx' | Hx']; [lra |].
  destruct (Rlt_dec 0 y); [apply Rabs_le; lra |].
  destruct (Rlt_dec y 0); apply Rabs_le; lra.
Qed.

Lemma to_degrees_nonneg (a : R) : (0 <= to_degrees a)%Z.
Proof.
  unfold to_degrees, deg.
  pose proof (Rabs_pos a) as Ha.
  pose proof (py_round_near (Rabs a * (573 / 10))) as [_ Hr].
  apply Z.lt_succ_r, lt_IZR. rewrite succ_IZR. nra.
Qed.

Lemma to_degrees_le_180 (a : R) : Rabs a <= PI -> (to_degrees a <= 180)%Z.
Proof.
  intros Ha. unfold to_degrees, deg.
  pose proof PI_upper as Hpi. pose proof (Rabs_pos a) as H0.
  apply (py_round_range _ 0 180); nra.
Qed.

Lemma to_degrees_le_90 (a : R) : Rabs a <= PI / 2 -> (to_degrees a <= 90)%Z.
Proof.
  intros Ha. unfold to_degrees, deg.
  pose proof PI_upper as Hpi. pose proof (Rabs_pos a) as H0.
  apply (py_round_range _ 0 90); nra.
Qed.

(** The spec's worked example: a sensor lying flat on its mounting reads a
    quarter turn of roll and no pitch. *)
Lemma to_degrees_quarter_turn : to_degrees (atan2 1 0) = 90%Z.
Proof.
  unfold atan2.
  destruct (Rlt_dec 0 0) as [H | _]; [lra |].
  destruct (Rlt_dec 0 0) as [H | _]; [lra |].
  destruct (Rlt_dec 0 1) as [_ | H]; [| lra].
  pose proof PI_lower as Hlo. pose proof PI_upper as Hhi.
  unfold to_degrees, deg. rewrite Rabs_pos_eq by lra.
  assert (H : (90 <= py_round (PI / 2 * (573 / 10)) <= 90)%Z)
    by (apply py_round_range; lra).
  lia.
Qed.

Lemma atan2_0_pos (x : R) : 0 < x -> atan2 0 x = 0.
Proof.
  intros Hx. unfold atan2.
  destruct (Rlt_dec 0 x) as [_ | H]; [| lra].
  unfold Rdiv. rewrite Rmult_0_l. apply atan_0.
Qed.

Lemma to_degrees_0 : to_degrees 0 = 0%Z.
Proof.
  unfold to_degrees. rewrite Rabs_R0, Rmult_0_l. apply (py_round_IZR 0).
Qed.

End PyMathFacts.

(** ** Roll and pitch *)

Section Derive.
Import PyMath PyMathFacts.
Local Open Scope R_scope.

Lemma Q2R_inject_Z (n : Z) : Q2R (inject_Z n) = IZR n.
Proof. unfold Q2R. simpl. field. Qed.

Lemma Qlt_bool_nonneg (q : Q) : 0 <= Q2R q -> Qlt_bool q 0 = false.
Proof.
  intros H. unfold Qlt_bool.
  assert (Hq : (0 <= q)%Q).
  { apply Rle_Qle. replace (Q2R 0) with 0 by (unfold Q2R; simpl; field). exact H. }
  apply Qle_bool_iff in Hq. now rewrite Hq.
Qed.

Lemma square_sum (y z : value) :
  json_number y = true -> json_number z = true ->
  exists yy zz sq q,
    py_mul y y = Ok yy /\ py_mul z z = Ok zz /\ py_add yy zz = Ok sq /\
    num_of sq = Some q /\
    Q2R q = real_of y * real_of y + real_of z * real_of z.
Proof.
  intros Hy Hz.
  destruct y as [| m | p | | |]; try discriminate;
  destruct z as [| n | q | | |]; try discriminate; cbn;
  eexists _, _, _, _; repeat split;
  unfold real_of; cbn;
  rewrite ?Q2R_plus, ?Q2R_mult, ?Q2R_inject_Z, ?plus_IZR, ?mult_IZR; reflexivity.
Qed.

Lemma py_neg_json (x : value) :
  json_number x = true ->
  exists nx, py_neg x = Ok nx /\ float_of nx = Ok (- real_of x).
Proof.
  destruct x as [| m | p | | |]; try discriminate; intros _; cbn;
  eexists; split; try reflexivity; unfold float_of, real_of; cbn;
  rewrite ?Q2R_opp, ?Q2R_inject_Z, ?opp_IZR; reflexivity.
Qed.

Lemma float_of_json (v : value) :
  json_number v = true -> float_of v = Ok (real_of v).
Proof. destruct v; try discriminate; reflexivity. Qed.

Lemma roll_pitch_json (event : dict) (vx vy vz : value) :
  event !! "accl_x" = Some vx -> event !! "accl_y" = Some vy ->
  event !! "accl_z" = Some vz ->
  json_number vx = true -> json_number vy = true -> json_number vz = true ->
  let x := real_of vx in
  let y := real_of vz in
  let z := real_of vy in
  roll_pitch event =
    Ok (py_round (Rabs (atan2 y z) * deg),
        py_round (Rabs (atan2 (- x) (sqrt (y * y + z * z))) * deg)).
Proof.
  intros Hx Hy Hz Jx Jy Jz x y z.
  unfold roll_pitch, getitem. rewrite Hx, Hz, Hy. cbn.
  rewrite (float_of_json vz Jz), (float_of_json vy Jy). cbn.
  destruct (py_neg_json vx Jx) as (nx & -> & Hnx). cbn.
  destruct (square_sum vz vy Jz Jy) as (yy & zz & sq & q & -> & -> & Hsq & Hq & HR).
  cbn. rewrite Hsq. cbn. unfold math_sqrt. rewrite Hq.
  rewrite Qlt_bool_nonneg by (rewrite HR; nra).
  cbn. rewrite Hnx. cbn. rewrite HR. reflexivity.
Qed.

End Derive.

(** ** Running the handler *)

Ltac run := unfold mbind, M_bind, result_bind, lift, mret, M_ret, result_ret.

Lemma getitem_Some (d : dict) (k : string) (v : value) :
  d !! k = Some v -> getitem d k = Ok v.
Proof. unfold getitem. by intros ->. Qed.

Lemma Decimal_repr_json (v : value) :
  json_number v = true -> Decimal (repr v) = Ok (VDec (number_of v)).
Proof. destruct v; try discriminate; reflexivity. Qed.

Lemma put_item_ok (d : dict) (uuid : string) (st : store) :
  map_Forall (fun _ v => is_Some (attr_of v)) d ->
  d !! "entryUUID" = Some (VStr uuid) ->
  put_item d st =
    (Ok tt, Store (<[uuid := omap attr_of d]> (entries_table st)) (devices_table st)).
Proof.
  intros Hd Hu. unfold put_item, serialize_item.
  destruct (decide _) as [_ | []]; [| exact Hd].
  unfold key_of. rewrite lookup_omap, Hu. reflexivity.
Qed.

Lemma insert_entry_ok (event : dict) (uuid dev : string) (soil roll pitch ts : Z) st :
  valid_ok_event event uuid dev soil ->
  insert_entry event roll pitch ts st =
    (Ok tt,
     Store (<[uuid := ok_entry event uuid dev soil roll pitch ts]> (entries_table st))
           (devices_table st)).
Proof.
  intros [Hs Hu Hd Hax Hr Hsoil].
  cbn in Hax. unfold is_json_number, is_int in Hax, Hr.
  unfold insert_entry, getitem. run. rewrite Hs. cbn.
  rewrite Hu, Hd, Hsoil. cbn.
  unfold ok_entry, qfield.
  repeat match type of Hax with
         | context [event !! ?k] =>
             let v := fresh "v" in let E := fresh "E" in
             destruct (event !! k) as [v |] eqn:E; [| discriminate];
             destruct (json_number v) eqn:?; [| discriminate]
         end.
  destruct (event !! "rain") as [[] |]; try discriminate.
  cbn.
  rewrite !Decimal_repr_json by assumption. cbn.
  etransitivity; [apply (put_item_ok _ uuid) |].
  - unfold dict_of. cbn [foldl fst snd].
    repeat (apply map_Forall_insert_2; [cbn; eauto |]).
    apply map_Forall_empty.
  - vm_compute. reflexivity.
  - do 3 f_equal; try (vm_compute; reflexivity).
Qed.

(** ** The aggregation *)

Lemma k_entry_wf (x : dict) :
  wf_entry x = true -> k_entry x = Ok (VDec (entry_k x)).
Proof.
  intros Hwf. unfold wf_entry in Hwf. cbn in Hwf. unfold is_decimal in Hwf.
  unfold k_entry, k_formula, entry_k, qfield, getitem. run.
  repeat match type of Hwf with
         | context [x !! ?k] =>
             destruct (x !! k) as [[] |]; try discriminate
         end.
  reflexivity.
Qed.

Lemma wf_entry_date (x : dict) :
  wf_entry x = true -> exists c, x !! "createdDate" = Some (VDec c).
Proof.
  unfold wf_entry. cbn. unfold is_decimal.
  destruct (x !! "createdDate") as [[] |]; try discriminate. eauto.
Qed.

Lemma k_event_int (event : dict) (soil roll pitch : Z) :
  event !! "soil" = Some (VInt soil) ->
  k_event event roll pitch =
    Ok (VDec (risk_k (inject_Z soil) (inject_Z roll) (inject_Z pitch))).
Proof. intros H. unfold k_event, k_formula, getitem. run. rewrite H. reflexivity. Qed.

Lemma keyed_wf (l : list dict) :
  forallb wf_entry l = true ->
  exists ks, keyed (fun x => getitem x "createdDate") l = Ok ks /\
             List.map snd ks = l /\ Forall dated ks.
Proof.
  induction l as [| x l IH]; [by exists [] |].
  cbn. intros [Hx Hl]%andb_prop. destruct (IH Hl) as (ks & Hks & Hsnd & Hd).
  apply wf_entry_date in Hx as (c & Hc).
  exists ((VDec c, x) :: ks). cbn. rewrite (getitem_Some _ _ _ Hc).
  run. unfold mbind, result_bind in Hks. rewrite Hks. cbn.
  repeat split; [by rewrite Hsnd |].
  constructor; [by exists c | done].
Qed.

Lemma insert_sorted_ok (x : value * dict) (l : list (value * dict)) :
  dated x -> Forall dated l -> StronglySorted key_le l ->
  exists s, insert_sorted x l = Ok s /\ s ≡ₚ x :: l /\ StronglySorted key_le s.
Proof.
  intros (c & Hc & Hxc) Hl Hs.
  induction l as [| y l IH]; cbn.
  - exists [x]. repeat split; [done | repeat constructor].
  - apply Forall_cons_1 in Hl as [(d & Hd & Hyd) Hl].
    apply StronglySorted_inv in Hs as [Hs Hy].
    run. rewrite Hd, Hc. cbn.
    destruct (Qlt_bool d c) eqn:E; cbn.
    + destruct (IH Hl Hs) as (s & -> & Hp & Hss). cbn.
      exists (y :: s). repeat split.
      * rewrite Hp. apply Permutation_swap.
      * constructor; [done |].
        rewrite Hp. constructor; [| done].
        unfold key_le, by_date, qfield. rewrite Hyd, Hxc. cbn.
        unfold Qlt_bool in E. apply negb_true_iff in E.
        apply Qlt_le_weak, Qnot_le_lt. intros Hle.
        apply Qle_bool_iff in Hle. congruence.
    + exists (x :: y :: l). repeat split; [done |].
      assert (Hxy : key_le x y).
      { unfold key_le, by_date, qfield. rewrite Hyd, Hxc. cbn.
        unfold Qlt_bool in E. apply negb_false_iff in E.
        by apply Qle_bool_iff. }
      constructor; [by constructor |].
      constructor; [done |].
      eapply Forall_impl; [exact Hy |].
      intros z Hz. unfold key_le, by_date in *. by eapply Qle_trans.
Qed.

Lemma sort_pairs_ok (l : list (value * dict)) :
  Forall dated l ->
  exists s, sort_pairs l = Ok s /\ s ≡ₚ l /\ StronglySorted key_le s.
Proof.
  induction 1 as [| x l Hx Hl (s & Hs & Hp & Hss)]; cbn.
  - exists []. repeat split; constructor.
  - run. unfold mbind, result_bind in Hs. rewrite Hs.
    destruct (insert_sorted_ok x s Hx) as (s' & Hs' & Hp' & Hss'); [| done |].
    + by rewrite Hp.
    + exists s'. repeat split; [done | by rewrite Hp', Hp | done].
Qed.

Lemma sort_by_wf (l : list dict) :
  forallb wf_entry l = true ->
  exists s, sort_by (fun x => getitem x "createdDate") l = Ok s /\
            s ≡ₚ l /\ StronglySorted by_date s.
Proof.
  intros Hl. destruct (keyed_wf l Hl) as (ks & Hks & Hsnd & Hd).
  destruct (sort_pairs_ok ks Hd) as (s & Hs & Hp & Hss).
  exists (List.map snd s). unfold sort_by. run.
  unfold mbind, result_bind in Hks, Hs. rewrite Hks, Hs.
  repeat split.
  - rewrite <- Hsnd. by apply Permutation_map.
  - clear -Hss. induction Hss as [| x s _ IH Hx]; cbn; constructor; [done |].
    by apply Forall_map.
Qed.

Lemma update_item_inv (key v1 v2 : value) (st st' : store) (r : result unit) :
  update_item key v1 v2 st = (r, st') ->
  (exists dev a1 a2,
     key = VStr dev /\ attr_of v1 = Some a1 /\ attr_of v2 = Some a2 /\
     r = Ok tt /\
     st' = Store (entries_table st)
             (<[dev := <["lastUpdated" := a2]>
                 (<["riskFactor" := a1]>
                   (default {["deviceID" := AS dev]} (devices_table st !! dev)))]>
                (devices_table st))) \/
  ((exists e, r = Raise e) /\ st' = st).
Proof.
  unfold update_item, serialize_item.
  destruct (decide (map_Forall _ {["deviceID" := key]})) as [Hk | Hk];
    [| intros [= <- <-]; right; eauto].
  destruct (decide (map_Forall _ (<[":v2" := v2]> {[":v1" := v1]}))) as [Hv | Hv];
    [| intros [= <- <-]; right; eauto].
  apply map_Forall_singleton in Hk as [k Hk].
  apply map_Forall_insert in Hv as [[a2 Ha2] Hv]; [| done].
  apply map_Forall_singleton in Hv as [a1 Ha1].
  unfold key_of. rewrite !lookup_omap.
  rewrite lookup_singleton_eq, lookup_insert_eq.
  rewrite lookup_insert_ne by done. rewrite lookup_singleton_eq. cbn.
  rewrite Hk, Ha1, Ha2. cbn.
  destruct key as [| | | | dev |]; cbn in Hk; simplify_eq;
    try (intros [= <- <-]; right; by eauto).
  intros [= <- <-]. left. exists dev, a1, a2. repeat split; try done.
Qed.

Lemma risk_factor_of_short (event : dict) (roll pitch : Z) (array : list dict) :
  (length array < 3)%nat -> risk_factor_of event roll pitch array = Ok (VInt 0).
Proof.
  intros H. unfold risk_factor_of.
  destruct (Nat.ltb_spec 2 (length array)) as [H' | _]; [lia | reflexivity].
Qed.

Lemma risk_factor_of_wf (event : dict) (soil roll pitch : Z) (array : list dict) :
  event !! "soil" = Some (VInt soil) ->
  (3 <= length array)%nat -> forallb wf_entry array = true ->
  exists e0 e1 rest,
    sort_by (fun x => getitem x "createdDate") array = Ok (e0 :: e1 :: rest) /\
    e0 :: e1 :: rest ≡ₚ array /\
    StronglySorted by_date (e0 :: e1 :: rest) /\
    risk_factor_of event roll pitch array =
      Ok (VDec (Qabs (entry_k e0 - entry_k e1)
                * risk_k (inject_Z soil) (inject_Z roll) (inject_Z pitch))).
Proof.
  intros Hsoil Hlen Hwf.
  destruct (sort_by_wf array Hwf) as (s & Hs & Hp & Hss).
  assert (Hlen' : (3 <= length s)%nat) by by rewrite Hp.
  destruct s as [| e0 [| e1 rest]]; cbn in Hlen'; try lia.
  exists e0, e1, rest. repeat split; try done.
  assert (Hwf' : Forall (fun x => wf_entry x = true) (e0 :: e1 :: rest)).
  { rewrite Hp. apply Forall_forall. intros x Hx.
    eapply forallb_forall in Hwf; [exact Hwf | by apply list_elem_of_In]. }
  apply Forall_cons_1 in Hwf' as [H0 Hwf'].
  apply Forall_cons_1 in Hwf' as [H1 _].
  unfold risk_factor_of.
  destruct (Nat.ltb_spec 2 (length array)) as [_ | H']; [| lia].
  run. unfold mbind, result_bind in Hs. rewrite Hs. cbn.
  rewrite (k_entry_wf e0 H0), (k_entry_wf e1 H1).
  rewrite (k_event_int event soil roll pitch Hsoil). reflexivity.
Qed.

Lemma bind_Ok {A B} (m : result A) (f : A -> result B) (b : B) :
  m ≫= f = Ok b -> exists a, m = Ok a /\ f a = Ok b.
Proof. destruct m as [a | e]; cbn; [eauto | discriminate]. Qed.

Lemma risk_k_nonneg (s r p : Q) :
  (0 <= s -> 0 <= r -> 0 <= p -> 0 <= risk_k s r p)%Q.
Proof.
  intros Hs Hr Hp. unfold risk_k.
  assert (H1 : (0 <= s / 1023)%Q) by (apply Qle_shift_div_l; [reflexivity | lra]).
  assert (H2 : (0 <= r / 180)%Q) by (apply Qle_shift_div_l; [reflexivity | lra]).
  assert (H3 : (0 <= p / 90)%Q) by (apply Qle_shift_div_l; [reflexivity | lra]).
  assert (H4 : (0 <= (r / 180 + p / 90) / 2)%Q)
    by (apply Qle_shift_div_l; [reflexivity | lra]).
  lra.
Qed.

Lemma inject_Z_nonneg (n : Z) : (0 <= n)%Z -> (0 <= inject_Z n)%Q.
Proof. intros H. change 0%Q with (inject_Z 0). by rewrite <- Zle_Qle. Qed.

Lemma risk_factor_of_nonneg (event : dict) (soil roll pitch : Z)
    (array : list dict) (v : value) :
  event !! "soil" = Some (VInt soil) ->
  (0 <= soil)%Z -> (0 <= roll)%Z -> (0 <= pitch)%Z ->
  risk_factor_of event roll pitch array = Ok v ->
  exists q, attr_of v = Some (AN q) /\ (0 <= q)%Q.
Proof.
  intros Hsoil Hs Hr Hp. unfold risk_factor_of.
  destruct (2 <? length array)%nat.
  - intros H.
    apply bind_Ok in H as (s & _ & H). apply bind_Ok in H as (e0 & _ & H).
    apply bind_Ok in H as (k1 & _ & H). apply bind_Ok in H as (e1 & _ & H).
    apply bind_Ok in H as (k2 & _ & H). apply bind_Ok in H as (diff & _ & H).
    apply bind_Ok in H as (d & Hd & H). apply bind_Ok in H as (k & Hk & H).
    rewrite (k_event_int event soil roll pitch Hsoil) in Hk.
    injection Hk as <-.
    pose proof (risk_k_nonneg _ _ _ (inject_Z_nonneg _ Hs)
                  (inject_Z_nonneg _ Hr) (inject_Z_nonneg _ Hp)) as Hk.
    destruct diff; cbn in Hd; simplify_eq; cbn in H; simplify_eq; cbn;
      eexists; (split; [reflexivity |]); apply Qmult_le_0_compat; try done.
    + apply inject_Z_nonneg. lia.
    + apply Qabs_nonneg.
    + apply inject_Z_nonneg. destruct b; cbn; lia.
  - intros [= <-]. exists 0%Q. by split.
Qed.

(** ** The handler as a whole *)

Section Claims.
Variable scan_order : gmap string item -> list item.

Lemma lambda_handler_eq (event : dict) (roll pitch ts : Z) (st : store) :
  roll_pitch event = Ok (roll, pitch) ->
  lambda_handler scan_order event ts st =
    (_ ← insert_entry event roll pitch ts;
     calculate_riskfactor scan_order event roll pitch ts) st.
Proof. intros H. unfold lambda_handler. run. by rewrite H. Qed.

Lemma lambda_handler_raise (event : dict) (e : exn) (ts : Z) (st : store) :
  roll_pitch event = Raise e ->
  lambda_handler scan_order event ts st = (Raise e, st).
Proof. intros H. unfold lambda_handler. run. by rewrite H. Qed.

Lemma calculate_riskfactor_ok (event : dict) (dev : string)
    (roll pitch ts : Z) (st : store) :
  event !! "status" = Some (VInt 0) ->
  event !! "deviceID" = Some (VStr dev) ->
  calculate_riskfactor scan_order event roll pitch ts st =
    match risk_factor_of event roll pitch
            (scan_items scan_order (AS dev) (entries_table st)) with
    | Ok rf => update_item (VStr dev) rf (VInt ts) st
    | Raise e => (Raise e, st)
    end.
Proof.
  intros Hs Hd. unfold calculate_riskfactor, getitem, scan. run.
  rewrite Hs, Hd. cbn. reflexivity.
Qed.

Lemma update_item_ok (dev : string) (v : value) (a : attr) (ts : Z) (st : store) :
  attr_of v = Some a ->
  update_item (VStr dev) v (VInt ts) st =
    (Ok tt, Store (entries_table st) (upserted dev a ts (devices_table st))).
Proof.
  intros Ha. unfold update_item, serialize_item.
  destruct (decide (map_Forall _ {["deviceID" := VStr dev]})) as [_ | n];
    [| destruct n; by apply map_Forall_singleton].
  destruct (decide (map_Forall _ (<[":v2" := VInt ts]> {[":v1" := v]})))
    as [_ | n];
    [| destruct n; apply map_Forall_insert_2;
       [by eexists | by apply map_Forall_singleton]].
  unfold key_of. rewrite !lookup_omap.
  rewrite lookup_singleton_eq, lookup_insert_eq.
  rewrite lookup_insert_ne by done. rewrite lookup_singleton_eq. cbn.
  rewrite Ha. cbn. unfold upserted.
  by rewrite omap_singleton_Some with (y := AS dev).
Qed.

Lemma handler_on_valid (event : dict) (uuid dev : string)
    (soil roll pitch ts : Z) (st : store) :
  valid_ok_event event uuid dev soil ->
  roll_pitch event = Ok (roll, pitch) ->
  let st1 := Store (<[uuid := ok_entry event uuid dev soil roll pitch ts]>
                      (entries_table st)) (devices_table st) in
  lambda_handler scan_order event ts st =
    match risk_factor_of event roll pitch
            (scan_items scan_order (AS dev) (entries_table st1)) with
    | Ok rf => update_item (VStr dev) rf (VInt ts) st1
    | Raise e => (Raise e, st1)
    end.
Proof.
  intros Hv Hrp st1. rewrite (lambda_handler_eq _ _ _ _ _ Hrp).
  unfold mbind at 1. unfold M_bind.
  rewrite (insert_entry_ok _ _ _ _ _ _ _ _ Hv).
  apply calculate_riskfactor_ok; apply Hv.
Qed.

(** C1: when the retrieval, run once the event's entry is written, returns
    at least three usable entries, the stored risk factor is [d * k_cur]:
    the sample is sorted by ascending [createdDate], [d] is the distance
    between the [k] of its two earliest entries, and [k_cur] is the [k] of
    the incoming event's soil and derived angles. *)
Theorem risk_factor_formula (event : dict) (uuid dev : string)
    (soil roll pitch ts : Z) (st : store) (sample : list dict) :
  valid_ok_event event uuid dev soil ->
  roll_pitch event = Ok (roll, pitch) ->
  sample = scan_items scan_order (AS dev)
             (<[uuid := ok_entry event uuid dev soil roll pitch ts]>
                (entries_table st)) ->
  (3 <= length sample)%nat ->
  forallb wf_entry sample = true ->
  exists e0 e1 rest,
    sort_by (fun x => getitem x "createdDate") sample = Ok (e0 :: e1 :: rest) /\
    e0 :: e1 :: rest ≡ₚ sample /\
    StronglySorted by_date (e0 :: e1 :: rest) /\
    let k0 := risk_k (qfield e0 "soil") (qfield e0 "roll") (qfield e0 "pitch") in
    let k1 := risk_k (qfield e1 "soil") (qfield e1 "roll") (qfield e1 "pitch") in
    let d := Qabs (k0 - k1) in
    let k_cur := risk_k (inject_Z soil) (inject_Z roll) (inject_Z pitch) in
    lambda_handler scan_order event ts st =
      (Ok tt,
       Store (<[uuid := ok_entry event uuid dev soil roll pitch ts]>
                (entries_table st))
             (upserted dev (AN (d * k_cur)) ts (devices_table st))).
Proof.
  intros Hv Hrp Hsample Hlen Hwf.
  destruct (risk_factor_of_wf event soil roll pitch sample (ev_soil _ _ _ _ Hv)
              Hlen Hwf) as (e0 & e1 & rest & Hsort & Hperm & Hsorted & Hrf).
  exists e0, e1, rest. repeat split; try done.
  intros k0 k1 d k_cur.
  rewrite (handler_on_valid _ _ _ _ _ _ _ _ Hv Hrp). cbn [entries_table].
  rewrite <- Hsample, Hrf.
  by rewrite (update_item_ok dev _ (AN (d * k_cur))).
Qed.

(** *** Counting the retrieval *)

Lemma filter_take_length {A} (f : A -> bool) (n : nat) (l : list A) :
  (length (List.filter f (take n l)) <= length (List.filter f l))%nat.
Proof.
  revert n. induction l as [| x l IH]; intros [| n]; simpl; try lia.
  specialize (IH n). destruct (f x); simpl; lia.
Qed.

Lemma filter_perm_length {A} (f : A -> bool) (l l' : list A) :
  l ≡ₚ l' -> length (List.filter f l) = length (List.filter f l').
Proof.
  induction 1 as [| x l l' _ IH | x y l | l l' l'' _ IH1 _ IH2]; simpl.
  - done.
  - destruct (f x); simpl; lia.
  - destruct (f x), (f y); simpl; lia.
  - lia.
Qed.

Lemma scan_items_length (dev : string) (t : gmap string item) :
  (forall t, scan_order t ≡ₚ (map_to_list t).*2) ->
  (length (scan_items scan_order (AS dev) t)
   <= length (matching_entries dev t))%nat.
Proof.
  intros Hperm. unfold scan_items, matching_entries.
  rewrite length_fmap.
  etransitivity; [apply filter_take_length |].
  by rewrite (filter_perm_length _ _ _ (Hperm t)).
Qed.

Lemma matching_entries_insert (dev uuid : string) (it : item)
    (t : gmap string item) :
  (length (matching_entries dev (<[uuid := it]> t))
   <= S (length (matching_entries dev t)))%nat.
Proof.
  unfold matching_entries.
  destruct (t !! uuid) as [old |] eqn:E.
  - rewrite <- (insert_delete_eq t uuid it).
    rewrite (filter_perm_length _ _ ((uuid, it) :: map_to_list (delete uuid t)).*2)
      by (apply fmap_Permutation, map_to_list_insert, lookup_delete_eq).
    rewrite (filter_perm_length _ (map_to_list t).*2
               ((uuid, old) :: map_to_list (delete uuid t)).*2)
      by (apply fmap_Permutation; symmetry; by apply map_to_list_delete).
    cbn. destruct (matching dev it), (matching dev old); cbn; lia.
  - rewrite (filter_perm_length _ _ ((uuid, it) :: map_to_list t).*2)
      by (by apply fmap_Permutation, map_to_list_insert).
    cbn. destruct (matching dev it); cbn; lia.
Qed.

Lemma handler_resets (event : dict) (uuid dev : string)
    (soil roll pitch ts : Z) (st : store) :
  valid_ok_event event uuid dev soil ->
  roll_pitch event = Ok (roll, pitch) ->
  (length (scan_items scan_order (AS dev)
             (<[uuid := ok_entry event uuid dev soil roll pitch ts]>
                (entries_table st))) < 3)%nat ->
  lambda_handler scan_order event ts st =
    (Ok tt,
     Store (<[uuid := ok_entry event uuid dev soil roll pitch ts]>
              (entries_table st))
           (upserted dev (AN 0) ts (devices_table st))).
Proof.
  intros Hv Hrp Hlen.
  rewrite (handler_on_valid _ _ _ _ _ _ _ _ Hv Hrp). cbn [entries_table].
  rewrite (risk_factor_of_short _ _ _ _ Hlen).
  by rewrite (update_item_ok dev _ (AN 0)).
Qed.

(** C2, amended: the retrieval runs after the event's own entry has been
    written and counts it, so the reset to [0] is what a device with fewer
    than two matching prior entries gets; the row is upserted with
    [riskFactor = 0] and [lastUpdated = timestamp] whatever the event
    measures. *)
Theorem insufficient_history_resets (event : dict) (uuid dev : string)
    (soil roll pitch ts : Z) (st : store) :
  (forall t, scan_order t ≡ₚ (map_to_list t).*2) ->
  valid_ok_event event uuid dev soil ->
  roll_pitch event = Ok (roll, pitch) ->
  (length (matching_entries dev (entries_table st)) < 2)%nat ->
  lambda_handler scan_order event ts st =
    (Ok tt,
     Store (<[uuid := ok_entry event uuid dev soil roll pitch ts]>
              (entries_table st))
           (upserted dev (AN 0) ts (devices_table st))).
Proof.
  intros Hperm Hv Hrp Hprior.
  apply (handler_resets _ _ _ _ _ _ _ _ Hv Hrp).
  eapply Nat.le_lt_trans; [by apply scan_items_length |].
  eapply Nat.le_lt_trans; [apply matching_entries_insert | lia].
Qed.

(** *** The derived angles *)

Lemma deg_not_radian : (PyMath.deg * PI <> 180)%R.
Proof.
  unfold PyMath.deg.
  destruct (PI_2_3_7_ineq 1) as [H _].
  unfold sum_f_R0, tg_alt, PI_2_3_7_tg, Ratan_seq in H. simpl in H.
  lra.
Qed.

Lemma degrees_in_range (x y z : R) :
  (0 <= PyMath.to_degrees (PyMath.atan2 y z) <= 180)%Z /\
  (0 <= PyMath.to_degrees (PyMath.atan2 x (sqrt (y * y + z * z))) <= 90)%Z.
Proof.
  repeat split.
  - apply PyMathFacts.to_degrees_nonneg.
  - apply PyMathFacts.to_degrees_le_180, PyMathFacts.atan2_abs_le_PI.
  - apply PyMathFacts.to_degrees_nonneg.
  - apply PyMathFacts.to_degrees_le_90, PyMathFacts.atan2_abs_le_PI2, sqrt_pos.
Qed.

Lemma valid_axes (event : dict) (uuid dev : string) (soil : Z) :
  valid_ok_event event uuid dev soil ->
  exists vx vy vz,
    event !! "accl_x" = Some vx /\ event !! "accl_y" = Some vy /\
    event !! "accl_z" = Some vz /\
    json_number vx = true /\ json_number vy = true /\ json_number vz = true.
Proof.
  intros [_ _ _ Hax _ _]. cbn in Hax. unfold is_json_number in Hax.
  destruct (event !! "accl_x") as [vx |]; [| discriminate].
  destruct (event !! "accl_y") as [vy |]; [| by rewrite andb_false_r in Hax].
  destruct (event !! "accl_z") as [vz |];
    [| by rewrite !andb_false_r in Hax].
  exists vx, vy, vz.
  destruct (json_number vx), (json_number vy), (json_number vz);
    try discriminate; by repeat split.
Qed.

Lemma ok_entry_angles (event : dict) (uuid dev : string)
    (soil roll pitch ts : Z) :
  ok_entry event uuid dev soil roll pitch ts !! "roll"
    = Some (AN (inject_Z roll)) /\
  ok_entry event uuid dev soil roll pitch ts !! "pitch"
    = Some (AN (inject_Z pitch)).
Proof. split; vm_compute; reflexivity. Qed.

(** C4: for a valid status-OK event the derived roll lies in [[0, 180]] and
    the derived pitch in [[0, 90]], and these are the values the stored
    entry carries. *)
Theorem roll_pitch_in_range (event : dict) (uuid dev : string) (soil ts : Z)
    (st : store) :
  valid_ok_event event uuid dev soil ->
  exists roll pitch entry,
    roll_pitch event = Ok (roll, pitch) /\
    (0 <= roll <= 180)%Z /\ (0 <= pitch <= 90)%Z /\
    insert_entry event roll pitch ts st =
      (Ok tt, Store (<[uuid := entry]> (entries_table st)) (devices_table st)) /\
    entry !! "roll" = Some (AN (inject_Z roll)) /\
    entry !! "pitch" = Some (AN (inject_Z pitch)).
Proof.
  intros Hv.
  destruct (valid_axes _ _ _ _ Hv) as (vx & vy & vz & Hx & Hy & Hz & Jx & Jy & Jz).
  pose proof (roll_pitch_json event vx vy vz Hx Hy Hz Jx Jy Jz) as Hrp.
  cbv zeta in Hrp.
  destruct (degrees_in_range (- real_of vx) (real_of vz) (real_of vy))
    as [Hroll Hpitch].
  eexists _, _, _. split; [exact Hrp |].
  split; [exact Hroll |]. split; [exact Hpitch |].
  split; [by apply insert_entry_ok |].
  apply ok_entry_angles.
Qed.

(** *** Inversion of the steps *)

Lemma M_bind_inv {A B} (m : M A) (f : A -> M B) (st st' : store)
    (r : result B) :
  (m ≫= f) st = (r, st') ->
  (exists a st1, m st = (Ok a, st1) /\ f a st1 = (r, st')) \/
  (exists e, m st = (Raise e, st') /\ r = Raise e).
Proof.
  unfold mbind, M_bind. destruct (m st) as [[a | e] st1].
  - intros H. left. by exists a, st1.
  - intros [= <- <-]. right. by exists e.
Qed.

Lemma lift_inv {A} (x : result A) (st st' : store) (r : result A) :
  lift x st = (r, st') -> r = x /\ st' = st.
Proof. by intros [= <- <-]. Qed.

Lemma py_eq_status_exclusive (s : value) :
  py_eq s (VInt 0) = true -> py_eq s (VInt (-1)) = false.
Proof.
  destruct s as [| n | q | q | |]; cbn; try done;
    intros H%Qeq_bool_iff; apply not_true_iff_false;
    intros H'%Qeq_bool_iff; rewrite H in H'; discriminate.
Qed.

Lemma put_item_inv (d : dict) (st st' : store) (r : result unit) :
  put_item d st = (r, st') ->
  (exists uuid,
     d !! "entryUUID" = Some (VStr uuid) /\
     r = Ok tt /\
     st' = Store (<[uuid := omap attr_of d]> (entries_table st))
                 (devices_table st) /\
     dom (omap attr_of d) = dom d) \/
  ((exists e, r = Raise e) /\ st' = st).
Proof.
  unfold put_item, serialize_item.
  destruct (decide _) as [Hd | _]; [| intros [= <- <-]; right; eauto].
  unfold key_of. rewrite lookup_omap.
  destruct (d !! "entryUUID") as [[| | | | uuid |] |] eqn:E; cbn;
    try (intros [= <- <-]; right; by eauto).
  intros [= <- <-]. left. exists uuid. repeat split.
  apply set_eq. intros k. rewrite !elem_of_dom, lookup_omap.
  destruct (d !! k) as [v |] eqn:Ek; cbn; [| by split; intros []].
  split; [by eauto |]. intros _. exact (Hd k v Ek).
Qed.

(** The Entry Writer never touches the devices table, and in the entries
    table nothing but the record under the event's own [entryUUID]. *)
Lemma insert_entry_frame (event : dict) (roll pitch ts : Z) (st st' : store)
    (r : result unit) :
  insert_entry event roll pitch ts st = (r, st') ->
  devices_table st' = devices_table st /\
  (forall u, event !! "entryUUID" <> Some (VStr u) ->
             entries_table st' !! u = entries_table st !! u).
Proof.
  unfold insert_entry, getitem. run.
  destruct (event !! "status") as [s |]; cbn; [| by intros [= <- <-]].
  assert (Hput : forall d v,
            event !! "entryUUID" = Some v -> d !! "entryUUID" = Some v ->
            put_item d st = (r, st') ->
            devices_table st' = devices_table st /\
            (forall u, Some v <> Some (VStr u) ->
                       entries_table st' !! u = entries_table st !! u)).
  { intros d v _ Hd [(uuid & Hu & _ & -> & _) | [_ ->]]%put_item_inv; [| done].
    split; [done |]. intros u Hne. cbn. apply lookup_insert_ne.
    intros ->. apply Hne. congruence. }
  destruct (py_eq s (VInt (-1))).
  - destruct (event !! "entryUUID") as [v |] eqn:Eu; cbn;
      [| by intros [= <- <-]].
    destruct (event !! "deviceID") as [dv |]; cbn; [| by intros [= <- <-]].
    apply (Hput _ v eq_refl). vm_compute. reflexivity.
  - destruct (py_eq s (VInt 0)); [| by intros [= <- <-]].
    destruct (event !! "entryUUID") as [v |] eqn:Eu; cbn;
      [| by intros [= <- <-]].
    repeat match goal with
           | |- context [event !! ?k] =>
               destruct (event !! k) as [? |]; cbn; [| by intros [= <- <-]]
           | |- context [Decimal (repr ?x)] =>
               destruct (Decimal (repr x)); cbn; [| by intros [= <- <-]]
           end.
    apply (Hput _ v eq_refl). vm_compute. reflexivity.
Qed.

(** The Risk Aggregator never touches the entries table. *)
Lemma calculate_riskfactor_entries (event : dict) (roll pitch ts : Z)
    (st st' : store) (r : result unit) :
  calculate_riskfactor scan_order event roll pitch ts st = (r, st') ->
  entries_table st' = entries_table st.
Proof.
  unfold calculate_riskfactor, getitem, scan. run.
  destruct (event !! "status") as [s |]; cbn; [| by intros [= <- <-]].
  destruct (py_eq s (VInt 0)); cbn; [| by intros [= <- <-]].
  destruct (event !! "deviceID") as [dv |]; cbn; [| by intros [= <- <-]].
  destruct (serialize dv); cbn; [| by intros [= <- <-]].
  destruct (risk_factor_of _ _ _ _); cbn; [| by intros [= <- <-]].
  intros [(? & ? & ? & _ & _ & _ & _ & ->) | [_ ->]]%update_item_inv; done.
Qed.

(** *** Statuses other than OK *)

(** C10: an event whose status is neither [0] nor [-1] goes through both
    steps without a write: [insert_entry] falls through its two branches,
    [calculate_riskfactor] returns at once, and the handler leaves both
    tables as they were. *)
Theorem unknown_status_writes_nothing (event : dict) (s : value) (ts : Z)
    (st : store) :
  event !! "status" = Some s ->
  py_eq s (VInt 0) = false -> py_eq s (VInt (-1)) = false ->
  (forall roll pitch,
     insert_entry event roll pitch ts st = (Ok tt, st) /\
     calculate_riskfactor scan_order event roll pitch ts st = (Ok tt, st)) /\
  (exists r, lambda_handler scan_order event ts st = (r, st)) /\
  (forall roll pitch,
     roll_pitch event = Ok (roll, pitch) ->
     lambda_handler scan_order event ts st = (Ok tt, st)).
Proof.
  intros Hs H0 H1.
  assert (Hsteps : forall roll pitch,
            insert_entry event roll pitch ts st = (Ok tt, st) /\
            calculate_riskfactor scan_order event roll pitch ts st = (Ok tt, st)).
  { intros roll pitch. unfold insert_entry, calculate_riskfactor, getitem. run.
    rewrite Hs. cbn. by rewrite H0, H1. }
  assert (Hall : forall roll pitch,
            roll_pitch event = Ok (roll, pitch) ->
            lambda_handler scan_order event ts st = (Ok tt, st)).
  { intros roll pitch Hrp. rewrite (lambda_handler_eq _ _ _ _ _ Hrp).
    destruct (Hsteps roll pitch) as [Hi Hc]. unfold mbind, M_bind.
    by rewrite Hi. }
  repeat split; [apply Hsteps | apply Hsteps | | exact Hall].
  destruct (roll_pitch event) as [[roll pitch] | e] eqn:Hrp.
  - exists (Ok tt). by eapply Hall.
  - exists (Raise e). by apply lambda_handler_raise.
Qed.

(** C5: for an event with status [-1] the devices table is not touched, and
    the only change the entries table can see is one record under the
    event's [entryUUID] made of exactly [entryUUID], [status], [deviceID]
    and [createdDate]; that record is written whenever the axes are
    numbers and the identifiers can be stored. *)
Theorem sensor_error_entry (event : dict) (s : value) (ts : Z)
    (st st' : store) (r : result unit) :
  event !! "status" = Some s -> py_eq s (VInt (-1)) = true ->
  lambda_handler scan_order event ts st = (r, st') ->
  devices_table st' = devices_table st /\
  ((exists e, r = Raise e) /\ entries_table st' = entries_table st \/
   exists uuid entry,
     r = Ok tt /\ event !! "entryUUID" = Some (VStr uuid) /\
     entries_table st' = <[uuid := entry]> (entries_table st) /\
     dom entry = {["entryUUID"; "status"; "deviceID"; "createdDate"]} /\
     entry !! "createdDate" = Some (AN (inject_Z ts))) /\
  (forall uuid dv,
     forallb (fun name => is_json_number (event !! name))
       ["accl_x"; "accl_y"; "accl_z"] = true ->
     event !! "entryUUID" = Some (VStr uuid) ->
     event !! "deviceID" = Some dv ->
     is_Some (attr_of dv) -> is_Some (attr_of s) ->
     r = Ok tt).
Proof.
  intros Hs Herr Hrun.
  assert (H0 : py_eq s (VInt 0) = false).
  { destruct (py_eq s (VInt 0)) eqn:E; [| done].
    apply py_eq_status_exclusive in E. congruence. }
  assert (Hcalc : forall roll pitch st1,
            calculate_riskfactor scan_order event roll pitch ts st1 = (Ok tt, st1)).
  { intros. unfold calculate_riskfactor, getitem. run. rewrite Hs. cbn.
    by rewrite H0. }
  revert Hrun. unfold lambda_handler. run.
  destruct (roll_pitch event) as [[roll pitch] | e] eqn:Hrp; cbn.
  2:{ intros [= <- <-]. split; [done |]. split; [left; eauto |].
      intros uuid dv Hax _ _ _ _. exfalso. cbn in Hax.
      unfold is_json_number in Hax.
      destruct (event !! "accl_x") as [vx |] eqn:Ex; [| discriminate].
      destruct (event !! "accl_y") as [vy |] eqn:Ey;
        [| by rewrite andb_false_r in Hax].
      destruct (event !! "accl_z") as [vz |] eqn:Ez;
        [| by rewrite !andb_false_r in Hax].
      destruct (json_number vx) eqn:Jx, (json_number vy) eqn:Jy,
        (json_number vz) eqn:Jz; try discriminate.
      pose proof (roll_pitch_json event vx vy vz Ex Ey Ez Jx Jy Jz) as Hok.
      cbv zeta in Hok. congruence. }
  destruct (insert_entry event roll pitch ts st) as [r1 st1] eqn:Ei.
  intros Hrun.
  assert (r = r1 /\ st' = st1) as [-> ->].
  { destruct r1 as [[] | e]; [rewrite Hcalc in Hrun |]; by injection Hrun. }
  clear Hrun. revert Ei.
  unfold insert_entry, getitem. run. rewrite Hs. cbn. rewrite Herr.
  destruct (event !! "entryUUID") as [vu |] eqn:Eu; cbn.
  2:{ intros [= <- <-]. split; [done |]. split; [left; eauto |].
      intros; discriminate. }
  destruct (event !! "deviceID") as [dv |] eqn:Ed; cbn.
  2:{ intros [= <- <-]. split; [done |]. split; [left; eauto |].
      intros; discriminate. }
  match goal with |- put_item ?x st = _ -> _ => set (d := x) end.
  intros Ep.
  pose proof Ep as Ep'.
  apply put_item_inv in Ep as [(uuid & Hu & -> & -> & Hdom) | [[e ->] ->]].
  - split; [reflexivity |]. split; [| reflexivity].
    right. exists uuid, (omap attr_of d).
    assert (vu = VStr uuid) as -> by (vm_compute in Hu; congruence).
    split; [reflexivity |]. split; [reflexivity |]. split; [reflexivity |].
    split.
    + rewrite Hdom. subst d. vm_compute. reflexivity.
    + rewrite lookup_omap. subst d. vm_compute. reflexivity.
  - split; [done |]. split; [left; eauto |].
    intros uuid dv' _ [= ->] [= <-] [a Ha] [b Hb]. exfalso.
    revert Ep'. erewrite (put_item_ok d uuid).
    + discriminate.
    + subst d.
      repeat (apply map_Forall_insert_2; [cbn; eauto |]).
      apply map_Forall_empty.
    + subst d. vm_compute. reflexivity.
Qed.

(** *** Sign of the risk factor *)

Lemma upserted_risk (dev : string) (rf : attr) (ts : Z) (t : gmap string item) :
  exists row,
    upserted dev rf ts t !! dev = Some row /\
    row !! "riskFactor" = Some rf /\
    row !! "lastUpdated" = Some (AN (inject_Z ts)).
Proof.
  unfold upserted. eexists. split; [apply lookup_insert_eq |]. split.
  - rewrite lookup_insert_ne by done. apply lookup_insert_eq.
  - apply lookup_insert_eq.
Qed.

(** C6: for a valid status-OK event with [soil] in [[0, 1023]], whenever
    the Risk Aggregator has run to its end the device's row holds a risk
    factor that is a number and is not negative, in the insufficient-history
    branch and in the computed one; and it does run to its end when the
    retrieved entries are usable. *)
Theorem risk_factor_nonnegative (event : dict) (uuid dev : string)
    (soil ts : Z) (st : store) :
  valid_ok_event event uuid dev soil ->
  (0 <= soil <= 1023)%Z ->
  exists roll pitch,
    roll_pitch event = Ok (roll, pitch) /\
    (0 <= roll <= 180)%Z /\ (0 <= pitch <= 90)%Z /\
    let sample :=
      scan_items scan_order (AS dev)
        (<[uuid := ok_entry event uuid dev soil roll pitch ts]>
           (entries_table st)) in
    (forall st',
       lambda_handler scan_order event ts st = (Ok tt, st') ->
       exists row q,
         devices_table st' !! dev = Some row /\
         row !! "riskFactor" = Some (AN q) /\ (0 <= q)%Q /\
         row !! "lastUpdated" = Some (AN (inject_Z ts))) /\
    (forallb wf_entry sample = true ->
     exists st', lambda_handler scan_order event ts st = (Ok tt, st')).
Proof.
  intros Hv Hsoil.
  destruct (valid_axes _ _ _ _ Hv) as (vx & vy & vz & Hx & Hy & Hz & Jx & Jy & Jz).
  pose proof (roll_pitch_json event vx vy vz Hx Hy Hz Jx Jy Jz) as Hrp.
  cbv zeta in Hrp.
  destruct (degrees_in_range (- real_of vx) (real_of vz) (real_of vy))
    as [Hroll Hpitch].
  unfold PyMath.to_degrees in Hroll, Hpitch.
  set (roll := PyMath.py_round
                  (Rabs (PyMath.atan2 (real_of vz) (real_of vy)) * PyMath.deg))
    in *.
  set (pitch := PyMath.py_round
                  (Rabs (PyMath.atan2 (- real_of vx) _) * PyMath.deg)) in *.
  exists roll, pitch. split; [exact Hrp |].
  split; [exact Hroll |]. split; [exact Hpitch |].
  intros sample. split.
  - intros st'. rewrite (handler_on_valid _ _ _ _ _ _ _ _ Hv Hrp).
    cbn [entries_table]. fold sample.
    destruct (risk_factor_of event roll pitch sample) as [v | e] eqn:Hrf;
      [| discriminate].
    destruct (risk_factor_of_nonneg event soil roll pitch sample v
                (ev_soil _ _ _ _ Hv)) as (q & Hq & Hq0); try lia; [done |].
    rewrite (update_item_ok dev v (AN q) ts _ Hq). intros [= <-].
    cbn [devices_table].
    destruct (upserted_risk dev (AN q) ts (devices_table st))
      as (row & Hrow & Hr1 & Hr2).
    by exists row, q.
  - intros Hwf. rewrite (handler_on_valid _ _ _ _ _ _ _ _ Hv Hrp).
    cbn [entries_table]. fold sample.
    destruct (Nat.lt_ge_cases (length sample) 3) as [Hshort | Hlong].
    + rewrite (risk_factor_of_short _ _ _ _ Hshort).
      rewrite (update_item_ok dev _ (AN 0)) by done. eauto.
    + destruct (risk_factor_of_wf event soil roll pitch sample
                  (ev_soil _ _ _ _ Hv) Hlong Hwf)
        as (e0 & e1 & rest & _ & _ & _ & ->).
      erewrite update_item_ok by done. eauto.
Qed.

End Claims.

(** * Further properties *)

(** ** The clock and the symmetry of the angles *)

Module PyMathSymmetry.
Import PyMath PyMathFacts.
Local Open Scope R_scope.

Lemma Int_part_shift (n : Z) (f : R) : 0 <= f < 1 -> Int_part (IZR n + f) = n.
Proof.
  intros [H0 H1]. symmetry. apply Int_part_spec. lra.
Qed.

Lemma py_round_cases (n : Z) (f : R) :
  0 <= f < 1 ->
  py_round (IZR n + f) =
    if Rlt_dec f (1 / 2) then n
    else if Rlt_dec (1 / 2) f then (n + 1)%Z
    else if Z.even n then n else (n + 1)%Z.
Proof.
  intros Hf. unfold py_round. rewrite (Int_part_shift n f Hf).
  replace (IZR n + f - IZR n) with f by ring. reflexivity.
Qed.

Lemma atan2_abs_opp (y x : R) : Rabs (atan2 (- y) x) = Rabs (atan2 y x).
Proof.
  unfold atan2.
  destruct (Rlt_dec 0 x) as [Hx | Hx].
  - replace (- y / x) with (- (y / x)) by (field; lra).
    by rewrite atan_opp, Rabs_Ropp.
  - destruct (Rlt_dec x 0) as [Hx' | Hx'].
    + replace (- y / x) with (- (y / x)) by (field; lra).
      rewrite atan_opp.
      destruct (Rle_dec 0 (- y)) as [Hy | Hy], (Rle_dec 0 y) as [Hy' | Hy'];
        try lra.
      * assert (y = 0) as -> by lra.
        replace (0 / x) with 0 by (field; lra). by rewrite atan_0, Ropp_0.
      * replace (- atan (y / x) + PI) with (- (atan (y / x) - PI)) by ring.
        by rewrite Rabs_Ropp.
      * replace (- atan (y / x) - PI) with (- (atan (y / x) + PI)) by ring.
        by rewrite Rabs_Ropp.
    + destruct (Rlt_dec 0 (- y)), (Rlt_dec (- y) 0), (Rlt_dec 0 y),
        (Rlt_dec y 0); try lra; try reflexivity;
        by rewrite ?Rabs_Ropp.
Qed.

End PyMathSymmetry.

(** X1: the clock reading is rounded to the nearest whole second, a tie going
    to the even one; the stored timestamp is the second of the reading or
    the next one. *)
Theorem epochtime_nearest_second (secs micro : Z) :
  (0 <= micro < 1000000)%Z ->
  epochtime secs micro =
    (if (micro <? 500000)%Z then secs
     else if (500000 <? micro)%Z then secs + 1
     else if Z.even secs then secs else secs + 1)%Z /\
  (secs <= epochtime secs micro <= secs + 1)%Z.
Proof.
  intros [H0 H1].
  assert (Hf : (0 <= IZR micro / 1000000 < 1)%R).
  { apply IZR_le in H0. apply IZR_lt in H1. split.
    - apply Rmult_le_pos; [exact H0 | lra].
    - apply Rmult_lt_reg_r with 1000000%R; [lra |].
      replace (IZR micro / 1000000 * 1000000)%R with (IZR micro) by field.
      lra. }
  assert (E : epochtime secs micro =
              (if (micro <? 500000)%Z then secs
               else if (500000 <? micro)%Z then secs + 1
               else if Z.even secs then secs else secs + 1)%Z).
  { unfold epochtime. rewrite (PyMathSymmetry.py_round_cases _ _ Hf).
    destruct (Z.ltb_spec micro 500000) as [Hlt | Hge].
    - apply IZR_lt in Hlt.
      destruct (Rlt_dec _ _) as [_ | n]; [reflexivity | exfalso; apply n; lra].
    - destruct (Rlt_dec (IZR micro / 1000000) (1 / 2)) as [Hlt | _].
      { apply IZR_le in Hge. exfalso. lra. }
      destruct (Z.ltb_spec 500000 micro) as [Hgt | Hle].
      + apply IZR_lt in Hgt.
        destruct (Rlt_dec _ _) as [_ | n]; [reflexivity | exfalso; apply n; lra].
      + assert (micro = 500000%Z) as -> by lia.
        destruct (Rlt_dec _ _) as [Hlt | _]; [exfalso; lra | reflexivity]. }
  split; [exact E |]. rewrite E.
  destruct (micro <? 500000)%Z, (500000 <? micro)%Z, (Z.even secs); lia.
Qed.

Lemma real_of_neg (v v' : value) :
  json_number v = true -> py_neg v = Ok v' ->
  json_number v' = true /\ real_of v' = (- real_of v)%R.
Proof.
  destruct v; try discriminate; intros _ [= <-]; (split; [reflexivity |]);
    unfold real_of; cbn.
  - rewrite <- Q2R_opp. reflexivity.
  - by rewrite Q2R_opp.
Qed.

(** X2: the sign of the tilt is lost.  Negating the reading of [accl_x], of
    [accl_z] (the logical [y]), or of both changes neither angle: [roll] is
    the absolute value of an angle that is odd in [y], and [pitch] that of
    an angle that is odd in [x] and sees [y] through its square. *)
Theorem tilt_sign_is_lost (event event' : dict) (vx vy vz vx' vz' : value) :
  event !! "accl_x" = Some vx -> event !! "accl_y" = Some vy ->
  event !! "accl_z" = Some vz ->
  json_number vx = true -> json_number vy = true -> json_number vz = true ->
  py_neg vx = Ok vx' -> py_neg vz = Ok vz' ->
  event' !! "accl_x" = Some vx' -> event' !! "accl_y" = Some vy ->
  event' !! "accl_z" = Some vz' ->
  roll_pitch event' = roll_pitch event /\
  roll_pitch (<["accl_x" := vx']> event) = roll_pitch event /\
  roll_pitch (<["accl_z" := vz']> event) = roll_pitch event.
Proof.
  intros Hx Hy Hz Jx Jy Jz Nx Nz Hx' Hy' Hz'.
  destruct (real_of_neg vx vx' Jx Nx) as [Jx' Rx].
  destruct (real_of_neg vz vz' Jz Nz) as [Jz' Rz].
  rewrite (roll_pitch_json event vx vy vz Hx Hy Hz Jx Jy Jz).
  assert (Hsq : forall a b : R, (- a * - a + b * b = a * a + b * b)%R)
    by (intros; ring).
  repeat split.
  - rewrite (roll_pitch_json event' vx' vy vz' Hx' Hy' Hz' Jx' Jy Jz').
    cbv zeta. rewrite Rx, Rz, Hsq.
    by rewrite !PyMathSymmetry.atan2_abs_opp.
  - rewrite (roll_pitch_json (<["accl_x" := vx']> event) vx' vy vz);
      try done; try (by rewrite lookup_insert_ne);
      [| by rewrite lookup_insert_eq].
    cbv zeta. rewrite Rx.
    by rewrite !PyMathSymmetry.atan2_abs_opp.
  - rewrite (roll_pitch_json (<["accl_z" := vz']> event) vx vy vz');
      try done; try (by rewrite lookup_insert_ne);
      [| by rewrite lookup_insert_eq].
    cbv zeta. rewrite Rz, Hsq.
    by rewrite !PyMathSymmetry.atan2_abs_opp.
Qed.

(** ** What the Entry Writer accepts *)

Lemma Decimal_repr_Ok (v w : value) :
  Decimal (repr v) = Ok w -> json_number v = true.
Proof. destruct v; cbn; congruence. Qed.

Lemma put_item_raise (d : dict) (st st' : store) (e : exn) :
  put_item d st = (Raise e, st') -> st' = st.
Proof. intros [(? & _ & ? & _) | [_ ->]]%put_item_inv; [discriminate | done]. Qed.

Lemma put_item_Ok (d : dict) (st st' : store) :
  put_item d st = (Ok tt, st') ->
  map_Forall (fun _ v => is_Some (attr_of v)) d /\
  exists uuid, d !! "entryUUID" = Some (VStr uuid).
Proof.
  unfold put_item, serialize_item.
  destruct (decide _) as [Hd | _]; [| discriminate].
  unfold key_of. rewrite lookup_omap.
  destruct (d !! "entryUUID") as [[| | | | uuid |] |]; cbn; try discriminate.
  intros _. eauto.
Qed.

Lemma storable_is_Some (v : value) :
  is_Some (attr_of v) -> storable (Some v) = true.
Proof. intros [a Ha]. cbn. by rewrite Ha. Qed.

(** The Entry Writer writes all of an entry or nothing. *)
Lemma insert_entry_raise (event : dict) (roll pitch ts : Z) (st st' : store)
    (e : exn) :
  insert_entry event roll pitch ts st = (Raise e, st') -> st' = st.
Proof.
  unfold insert_entry, getitem. run.
  destruct (event !! "status") as [s |]; cbn; [| by intros [= _ <-]].
  destruct (py_eq s (VInt (-1))).
  - destruct (event !! "entryUUID") as [v |]; cbn; [| by intros [= _ <-]].
    destruct (event !! "deviceID") as [dv |]; cbn; [| by intros [= _ <-]].
    apply put_item_raise.
  - destruct (py_eq s (VInt 0)); [| discriminate].
    repeat match goal with
           | |- context [event !! ?k] =>
               destruct (event !! k) as [? |]; cbn; [| by intros [= _ <-]]
           | |- context [Decimal (repr ?x)] =>
               destruct (Decimal (repr x)); cbn; [| by intros [= _ <-]]
           end.
    apply put_item_raise.
Qed.

Lemma storable_Some (o : option value) :
  storable o = true -> exists v a, o = Some v /\ attr_of v = Some a.
Proof.
  destruct o as [v |]; [| discriminate]. cbn.
  destruct (attr_of v) as [a |] eqn:E; [| discriminate]. by exists v, a.
Qed.

Lemma is_json_number_Some (o : option value) :
  is_json_number o = true -> exists v, o = Some v /\ json_number v = true.
Proof. destruct o as [v |]; [| discriminate]. cbn. eauto. Qed.

Lemma storable_float (q : Q) : storable (Some (VFloat q)) = false.
Proof. reflexivity. Qed.

(** An event the Entry Writer does not accept ends it with an exception,
    the tables as they were. *)
Lemma insert_entry_refuses (event : dict) (s : value) (roll pitch ts : Z)
    (st : store) :
  event !! "status" = Some s -> py_eq s (VInt 0) = true ->
  accepted_ok event = false ->
  exists e, insert_entry event roll pitch ts st = (Raise e, st).
Proof.
  intros Hs H0 Hacc. pose proof (py_eq_status_exclusive s H0) as H1.
  destruct (insert_entry event roll pitch ts st) as [[[] | e] st'] eqn:E.
  - exfalso. assert (Hyes : accepted_ok event = true); [| congruence].
    clear Hacc. revert E.
    unfold insert_entry, getitem. run. rewrite Hs. cbn. rewrite H1, H0.
    repeat match goal with
           | |- context [match event !! ?k with _ => _ end] =>
               destruct (event !! k) as [? |] eqn:?; cbn;
               [| discriminate]
           | |- context [Decimal (repr ?x)] =>
               let E := fresh "E" in
               destruct (Decimal (repr x)) eqn:E; cbn; [| discriminate];
               apply Decimal_repr_Ok in E
           end.
    intros [Hd [uuid Hu]]%put_item_Ok.
    unfold dict_of in Hd, Hu. cbn [foldl fst snd] in Hd, Hu.
    vm_compute in Hu. injection Hu as ->.
    unfold accepted_ok. cbn [forallb].
    repeat match goal with
           | H : event !! ?k = Some _ |- context [event !! ?k] => rewrite H
           end.
    cbn [is_str is_json_number].
    repeat match goal with
           | H : json_number _ = true |- _ => rewrite H; clear H
           end.
    rewrite (storable_is_Some s)
      by (apply (Hd "status"); vm_compute; reflexivity).
    rewrite (storable_is_Some v0)
      by (apply (Hd "deviceID"); vm_compute; reflexivity).
    rewrite (storable_is_Some v7)
      by (apply (Hd "rain"); vm_compute; reflexivity).
    rewrite (storable_is_Some v8)
      by (apply (Hd "soil"); vm_compute; reflexivity).
    reflexivity.
  - apply insert_entry_raise in E as Est. subst st'. by exists e.
Qed.

(** An accepted event is stored, with the fourteen fields of lines 54 to
    67. *)
Lemma insert_entry_accepts (event : dict) (s : value) (roll pitch ts : Z)
    (st : store) :
  event !! "status" = Some s -> py_eq s (VInt 0) = true ->
  accepted_ok event = true ->
  exists uuid entry,
    event !! "entryUUID" = Some (VStr uuid) /\
    insert_entry event roll pitch ts st =
      (Ok tt, Store (<[uuid := entry]> (entries_table st)) (devices_table st)) /\
    dom entry =
      {["entryUUID"; "status"; "deviceID"; "accl_x"; "accl_y"; "accl_z";
        "gyro_x"; "gyro_y"; "gyro_z"; "roll"; "pitch"; "rain"; "soil";
        "createdDate"]}.
Proof.
  intros Hs H0. pose proof (py_eq_status_exclusive s H0) as H1.
  unfold accepted_ok. cbn [forallb]. rewrite !andb_true_iff.
  intros [[[[[Hu Hst] Hd] Hax] Hr] Hso].
  destruct Hax as (Ax & Ay & Az & Gx & Gy & Gz & _).
  destruct (event !! "entryUUID") as [[| | | | uuid |] |] eqn:Eu;
    try discriminate.
  apply storable_Some in Hst as (s' & as' & Es & Has).
  rewrite Hs in Es. injection Es as <-.
  apply storable_Some in Hd as (dv & ad & Ed & Had).
  apply storable_Some in Hr as (rv & ar & Er & Har).
  apply storable_Some in Hso as (sv & aso & Eso & Haso).
  apply is_json_number_Some in Ax as (ax & Eax & Jax).
  apply is_json_number_Some in Ay as (ay & Eay & Jay).
  apply is_json_number_Some in Az as (az & Eaz & Jaz).
  apply is_json_number_Some in Gx as (gx & Egx & Jgx).
  apply is_json_number_Some in Gy as (gy & Egy & Jgy).
  apply is_json_number_Some in Gz as (gz & Egz & Jgz).
  exists uuid. eexists. split; [reflexivity |].
  unfold insert_entry, getitem. run. rewrite Hs. cbn. rewrite H1, H0.
  rewrite Eu, Ed, Eax, Eay, Eaz, Egx, Egy, Egz, Er, Eso. cbn.
  rewrite !Decimal_repr_json by assumption. cbn.
  split.
  + apply (put_item_ok _ uuid).
    * unfold dict_of. cbn [foldl fst snd].
      repeat (apply map_Forall_insert_2; [cbn; eauto |]).
      apply map_Forall_empty.
    * vm_compute. reflexivity.
  + apply set_eq. intros k. rewrite elem_of_dom, lookup_omap.
    unfold dict_of. cbn [foldl fst snd].
    rewrite !elem_of_union, !elem_of_singleton.
    repeat match goal with
           | |- context [<[?key := _]> _ !! k] =>
               destruct (decide (k = key)) as [-> | ?];
               [ rewrite lookup_insert_eq; cbn;
                 rewrite ?Has, ?Had, ?Har, ?Haso;
                 split; [intros _; repeat first [by right | left]; done
                        | by eauto]
               | rewrite lookup_insert_ne by done ]
           end.
    rewrite lookup_empty. cbn.
    split; [by intros [] | intros H; decompose [or] H; congruence].
Qed.

(** X3: for an event whose status equals [0], the Entry Writer raises and
    leaves the tables as they were unless the event is [accepted_ok]; an
    accepted event within the limits of the store is stored under its
    [entryUUID], as an entry of the fourteen fields of lines 54 to 67. *)
Theorem entry_writer_acceptance (event : dict) (s : value) (roll pitch ts : Z)
    (st : store) :
  event !! "status" = Some s -> py_eq s (VInt 0) = true ->
  (accepted_ok event = true -> within_limits event = true ->
   int_limits roll && int_limits pitch && int_limits ts = true ->
   exists uuid entry,
     event !! "entryUUID" = Some (VStr uuid) /\
     insert_entry event roll pitch ts st =
       (Ok tt, Store (<[uuid := entry]> (entries_table st)) (devices_table st)) /\
     dom entry =
       {["entryUUID"; "status"; "deviceID"; "accl_x"; "accl_y"; "accl_z";
         "gyro_x"; "gyro_y"; "gyro_z"; "roll"; "pitch"; "rain"; "soil";
         "createdDate"]}) /\
  (accepted_ok event = false ->
   exists e, insert_entry event roll pitch ts st = (Raise e, st)).
Proof.
  intros Hs H0. split.
  - intros Hacc _ _. by apply (insert_entry_accepts event s).
  - by apply (insert_entry_refuses event s).
Qed.

(** *** What the Entry Writer stores *)

(** C9, amended: in the entry stored for a status-OK event each of the six
    axes is the number spelled by the text that [repr] prints for the
    event's value, and not the binary value of the float when the two
    differ; [rain] and [soil] are the event's own values, serialized as
    they are, which for a float cannot be done: with a float [rain] or
    [soil] the Entry Writer raises and stores nothing.  An accepted event
    within the limits of the store is stored. *)
Theorem axes_stored_from_repr (event : dict) (s : value) (roll pitch ts : Z)
    (st : store) :
  event !! "status" = Some s -> py_eq s (VInt 0) = true ->
  forallb (fun axis => match event !! axis with
                       | Some (VFloat p) => float_text p
                       | _ => true
                       end)
    ["accl_x"; "accl_y"; "accl_z"; "gyro_x"; "gyro_y"; "gyro_z"] = true ->
  (forall st',
     insert_entry event roll pitch ts st = (Ok tt, st') ->
     exists uuid entry,
       event !! "entryUUID" = Some (VStr uuid) /\
       st' = Store (<[uuid := entry]> (entries_table st)) (devices_table st) /\
       Forall (fun axis =>
                 exists v q,
                   event !! axis = Some v /\ repr v = Numeral q /\
                   Decimal (repr v) = Ok (VDec q) /\
                   entry !! axis = Some (AN q) /\
                   (forall p, v = VFloat p -> ~ (binary_of p == p)%Q ->
                              ~ (q == binary_of p)%Q))
         ["accl_x"; "accl_y"; "accl_z"; "gyro_x"; "gyro_y"; "gyro_z"] /\
       Forall (fun name =>
                 exists v, event !! name = Some v /\
                           (forall q, v <> VFloat q) /\
                           entry !! name = attr_of v)
         ["rain"; "soil"]) /\
  (forall name q,
     name ∈ ["rain"; "soil"] -> event !! name = Some (VFloat q) ->
     exists e, insert_entry event roll pitch ts st = (Raise e, st)) /\
  (accepted_ok event = true -> within_limits event = true ->
   int_limits roll && int_limits pitch && int_limits ts = true ->
   exists st', insert_entry event roll pitch ts st = (Ok tt, st')).
Proof.
  intros Hs Hok _. split; [| split].
  - unfold insert_entry, getitem. run.
    rewrite Hs. cbn. rewrite (py_eq_status_exclusive s Hok), Hok.
    destruct (event !! "entryUUID") as [vu |] eqn:Eu; cbn; [| discriminate].
    destruct (event !! "deviceID") as [dv |] eqn:Ed; cbn; [| discriminate].
    repeat match goal with
           | |- context [event !! ?k] =>
               let v := fresh "v" in let E := fresh "E" in
               destruct (event !! k) as [v |] eqn:E; cbn; [| discriminate]
           | |- context [Decimal (repr ?x)] =>
               let q := fresh "q" in let R := fresh "R" in
               destruct (repr x) as [q |] eqn:R; cbn; [| discriminate]
           end.
    match goal with |- forall _, put_item ?x st = _ -> _ => set (d := x) end.
    intros st' Hput. pose proof (put_item_Ok _ _ _ Hput) as [Hd _].
    revert Hput.
    intros [(uuid & Hu & _ & -> & _) | [[e He] _]]%put_item_inv;
      [| discriminate].
    assert (vu = VStr uuid) as -> by (vm_compute in Hu; congruence).
    exists uuid, (omap attr_of d). split; [reflexivity |].
    split; [reflexivity |]. split.
    + repeat (apply Forall_cons_2 || apply Forall_nil_2);
        eexists _, _; (split; [eassumption |]); (split; [eassumption |]);
        (split;
           [match goal with
            | H : repr ?v = Numeral _ |- Decimal (repr ?v) = _ =>
                rewrite H; reflexivity
            end |]);
        (split; [rewrite lookup_omap; subst d; vm_compute; reflexivity |]);
        intros p -> Hne;
        match goal with
        | H : repr (VFloat p) = Numeral _ |- _ => cbn in H; injection H as <-
        end;
        intros Heq; apply Hne; by symmetry.
    + repeat (apply Forall_cons_2 || apply Forall_nil_2);
        eexists; (split; [eassumption |]);
        (split; [| rewrite lookup_omap; subst d; vm_compute; reflexivity]);
        intros fq ->.
      * destruct (Hd "rain" (VFloat fq)) as [a Ha];
          [subst d; vm_compute; reflexivity | discriminate Ha].
      * destruct (Hd "soil" (VFloat fq)) as [a Ha];
          [subst d; vm_compute; reflexivity | discriminate Ha].
  - intros name q Hin Hf.
    apply (insert_entry_refuses event s); try done.
    unfold accepted_ok.
    repeat (apply elem_of_cons in Hin as [-> | Hin]);
      [| | by apply elem_of_nil in Hin]; rewrite Hf, storable_float.
    + by rewrite andb_false_r.
    + by rewrite andb_false_r.
  - intros Hacc _ _.
    destruct (insert_entry_accepts event s roll pitch ts st Hs Hok Hacc)
      as (uuid & entry & _ & Hrun & _).
    eauto.
Qed.

(** ** The sample and the risk factor *)

(** A list sorted by date is the only sorted arrangement of its entries
    when their dates are distinct. *)
Lemma sorted_by_date_unique (s s' : list dict) :
  StronglySorted by_date s -> StronglySorted by_date s' -> s ≡ₚ s' ->
  distinct_dates s -> s = s'.
Proof.
  intros Hs. revert s'. induction Hs as [| a s Hs IH Ha]; intros s' Hs' Hp Hd.
  - by apply Permutation_nil_l in Hp.
  - destruct Hs' as [| b s' Hs' Hb].
    { by apply Permutation_nil_r in Hp. }
    assert (Hab : a = b).
    { apply Hd.
      - apply list_elem_of_here.
      - rewrite Hp. apply list_elem_of_here.
      - assert (Ha' : a ∈ b :: s') by (rewrite <- Hp; apply list_elem_of_here).
        assert (Hb' : b ∈ a :: s) by (rewrite Hp; apply list_elem_of_here).
        apply Qle_antisym.
        + apply elem_of_cons in Hb' as [-> | Hb']; [apply Qle_refl |].
          rewrite Forall_forall in Ha. by apply Ha.
        + apply elem_of_cons in Ha' as [-> | Ha']; [apply Qle_refl |].
          rewrite Forall_forall in Hb. by apply Hb. }
    subst b. f_equal. apply IH; [done | by eapply Permutation_cons_inv |].
    intros x y Hx Hy. apply Hd; by apply list_elem_of_further.
Qed.

Lemma dates_differ_distinct (l : list dict) :
  dates_differ l = true -> distinct_dates l.
Proof.
  induction l as [| x l IH]; intros H a b Ha Hb Hq.
  - by apply elem_of_nil in Ha.
  - cbn in H. apply andb_prop in H as [Hx Hl].
    assert (Hne : forall c, c ∈ l ->
              ~ (qfield x "createdDate" == qfield c "createdDate")%Q).
    { intros c Hc Hxc. eapply forallb_forall in Hx;
        [| apply list_elem_of_In; exact Hc].
      apply negb_true_iff in Hx. apply Qeq_bool_iff in Hxc. congruence. }
    apply elem_of_cons in Ha as [-> | Ha], Hb as [-> | Hb].
    + reflexivity.
    + by destruct (Hne b Hb).
    + destruct (Hne a Ha). by symmetry.
    + by apply (IH Hl).
Qed.

Lemma in_range_spec (x : dict) :
  in_range x = true ->
  (0 <= qfield x "soil" <= 1023)%Q /\ (0 <= qfield x "roll" <= 180)%Q /\
  (0 <= qfield x "pitch" <= 90)%Q.
Proof.
  unfold in_range. rewrite !andb_true_iff, !Qle_bool_iff. tauto.
Qed.

Lemma forallb_wf_perm (l l' : list dict) :
  l ≡ₚ l' -> forallb wf_entry l = true -> forallb wf_entry l' = true.
Proof.
  intros Hp H. apply forallb_forall. intros x Hx%list_elem_of_In.
  rewrite <- Hp in Hx. eapply forallb_forall in H; [exact H |].
  by apply list_elem_of_In.
Qed.

(** X4: the order in which the retrieval hands over its entries does not
    matter when their [createdDate]s are distinct: the sort puts them in the
    one ascending order, and the risk factor is the same. *)
Theorem risk_independent_of_scan_order (event : dict) (roll pitch : Z)
    (array array' : list dict) :
  array ≡ₚ array' -> forallb wf_entry array = true -> distinct_dates array ->
  sort_by (fun x => getitem x "createdDate") array'
  = sort_by (fun x => getitem x "createdDate") array /\
  risk_factor_of event roll pitch array' = risk_factor_of event roll pitch array.
Proof.
  intros Hp Hwf Hd.
  assert (Hsort : sort_by (fun x => getitem x "createdDate") array'
                  = sort_by (fun x => getitem x "createdDate") array).
  { destruct (sort_by_wf array Hwf) as (s & Hs & Hps & Hss).
    destruct (sort_by_wf array' (forallb_wf_perm _ _ Hp Hwf))
      as (s' & Hs' & Hps' & Hss').
    rewrite Hs, Hs'. f_equal. symmetry.
    apply sorted_by_date_unique; try done.
    - by rewrite Hps, Hps'.
    - intros a b Ha Hb. apply Hd; by rewrite <- Hps. }
  split; [exact Hsort |].
  unfold risk_factor_of. rewrite <- (Permutation_length Hp).
  destruct (2 <? length array)%nat; [| done].
  by rewrite Hsort.
Qed.

Lemma risk_k_bounds (s r p : Q) :
  (0 <= s <= 1023 -> 0 <= r <= 180 -> 0 <= p <= 90 ->
   0 <= risk_k s r p <= 2)%Q.
Proof.
  intros Hs Hr Hp. split; [apply risk_k_nonneg; tauto |].
  unfold risk_k.
  assert (H1 : (s / 1023 <= 1)%Q) by (apply Qle_shift_div_r; [reflexivity | lra]).
  assert (H2 : (r / 180 <= 1)%Q) by (apply Qle_shift_div_r; [reflexivity | lra]).
  assert (H3 : (p / 90 <= 1)%Q) by (apply Qle_shift_div_r; [reflexivity | lra]).
  assert (H4 : ((r / 180 + p / 90) / 2 <= 1)%Q)
    by (apply Qle_shift_div_r; [reflexivity | lra]).
  lra.
Qed.

Lemma risk_product_bounds (k0 k1 k : Q) :
  (0 <= k0 <= 2 -> 0 <= k1 <= 2 -> 0 <= k <= 2 ->
   0 <= Qabs (k0 - k1) * k <= 4)%Q.
Proof.
  intros H0 H1 Hk.
  assert (Hd : (0 <= Qabs (k0 - k1) <= 2)%Q).
  { split; [apply Qabs_nonneg |]. apply Qabs_Qle_condition. lra. }
  split; [apply Qmult_le_0_compat; tauto |].
  apply Qle_trans with (2 * k)%Q; [| lra].
  apply Qmult_le_compat_r; tauto.
Qed.

(** X5: on the documented ranges ([soil] in [[0, 1023]], [roll] in
    [[0, 180]], [pitch] in [[0, 90]], for the event and for the entries of
    the sample) every [k] lies in [[0, 2]] and the risk factor the
    aggregation computes lies in [[0, 4]]. *)
Theorem risk_factor_at_most_4 (event : dict) (soil roll pitch : Z)
    (array : list dict) :
  event !! "soil" = Some (VInt soil) ->
  (0 <= soil <= 1023)%Z -> (0 <= roll <= 180)%Z -> (0 <= pitch <= 90)%Z ->
  forallb wf_entry array = true -> forallb in_range array = true ->
  exists q,
    (risk_factor_of event roll pitch array = Ok (VDec q) \/
     risk_factor_of event roll pitch array = Ok (VInt 0) /\ q = 0%Q) /\
    (0 <= q <= 4)%Q.
Proof.
  intros Hsoil Hs Hr Hp Hwf Hrange.
  destruct (Nat.lt_ge_cases (length array) 3) as [Hshort | Hlong].
  - exists 0%Q. split; [| lra]. right.
    by rewrite (risk_factor_of_short _ _ _ _ Hshort).
  - destruct (risk_factor_of_wf event soil roll pitch array Hsoil Hlong Hwf)
      as (e0 & e1 & rest & _ & Hperm & _ & ->).
    eexists. split; [by left |].
    assert (H0 : in_range e0 = true).
    { eapply forallb_forall; [exact Hrange |].
      apply list_elem_of_In. rewrite <- Hperm. apply list_elem_of_here. }
    assert (H1 : in_range e1 = true).
    { eapply forallb_forall; [exact Hrange |].
      apply list_elem_of_In. rewrite <- Hperm.
      apply list_elem_of_further, list_elem_of_here. }
    apply in_range_spec in H0 as (S0 & R0 & P0).
    apply in_range_spec in H1 as (S1 & R1 & P1).
    apply risk_product_bounds; unfold entry_k; apply risk_k_bounds;
      try done.
    + split; [apply inject_Z_nonneg; lia |].
      change 1023%Q with (inject_Z 1023). rewrite <- Zle_Qle. lia.
    + split; [apply inject_Z_nonneg; lia |].
      change 180%Q with (inject_Z 180). rewrite <- Zle_Qle. lia.
    + split; [apply inject_Z_nonneg; lia |].
      change 90%Q with (inject_Z 90). rewrite <- Zle_Qle. lia.
Qed.

(** On the documented ranges the aggregation yields a number that the
    table stores, in [[0, 4]]. *)
Lemma risk_factor_of_bounded (event : dict) (soil roll pitch : Z)
    (array : list dict) :
  event !! "soil" = Some (VInt soil) ->
  (0 <= soil <= 1023)%Z -> (0 <= roll <= 180)%Z -> (0 <= pitch <= 90)%Z ->
  forallb wf_entry array = true -> forallb in_range array = true ->
  exists v q,
    risk_factor_of event roll pitch array = Ok v /\
    attr_of v = Some (AN q) /\ (0 <= q <= 4)%Q.
Proof.
  intros Hsoil Hs Hr Hp Hwf Hrange.
  destruct (Nat.lt_ge_cases (length array) 3) as [Hshort | Hlong].
  - exists (VInt 0), 0%Q.
    rewrite (risk_factor_of_short _ _ _ _ Hshort).
    split; [done |]. split; [done | lra].
  - destruct (risk_factor_of_wf event soil roll pitch array Hsoil Hlong Hwf)
      as (e0 & e1 & rest & _ & Hperm & _ & ->).
    eexists _, _. split; [reflexivity |]. split; [reflexivity |].
    assert (Hin : forall e, e ∈ e0 :: e1 :: rest ->
              (0 <= entry_k e <= 2)%Q).
    { intros e He. rewrite Hperm in He.
      eapply forallb_forall in Hrange; [| apply list_elem_of_In; exact He].
      apply in_range_spec in Hrange as (S0 & R0 & P0).
      unfold entry_k. by apply risk_k_bounds. }
    apply risk_product_bounds.
    + apply Hin, list_elem_of_here.
    + apply Hin, list_elem_of_further, list_elem_of_here.
    + apply risk_k_bounds.
      * split; [apply inject_Z_nonneg; lia |].
        change 1023%Q with (inject_Z 1023). rewrite <- Zle_Qle. lia.
      * split; [apply inject_Z_nonneg; lia |].
        change 180%Q with (inject_Z 180). rewrite <- Zle_Qle. lia.
      * split; [apply inject_Z_nonneg; lia |].
        change 90%Q with (inject_Z 90). rewrite <- Zle_Qle. lia.
Qed.

(** ** The footprint of an invocation *)

Lemma put_item_local (d : dict) :
  exists w, (forall st, put_item d st = written w st) /\
            (forall u it, w = Ok (Some (u, it)) ->
                          d !! "entryUUID" = Some (VStr u)).
Proof.
  unfold put_item. destruct (serialize_item d) as [it | e] eqn:Es;
    [| by exists (Raise e)].
  destruct (key_of "entryUUID" it) as [u | e] eqn:Ek;
    [| by exists (Raise e)].
  exists (Ok (Some (u, it))). split; [done |].
  intros u' it' [= <- <-].
  unfold serialize_item in Es. destruct (decide _); [| discriminate].
  injection Es as <-. unfold key_of in Ek. rewrite lookup_omap in Ek.
  destruct (d !! "entryUUID") as [[] |]; cbn in Ek; by simplify_eq.
Qed.

(** What the Entry Writer does is fixed by the event, the angles and the
    timestamp; the tables only receive it. *)
Lemma insert_entry_local (event : dict) (roll pitch ts : Z) :
  exists w, (forall st, insert_entry event roll pitch ts st = written w st) /\
            (forall u it, w = Ok (Some (u, it)) ->
                          event !! "entryUUID" = Some (VStr u)).
Proof.
  assert (Hput : forall d v,
            event !! "entryUUID" = Some v -> d !! "entryUUID" = Some v ->
            exists w, (forall st, put_item d st = written w st) /\
                      (forall u it, w = Ok (Some (u, it)) ->
                                    event !! "entryUUID" = Some (VStr u))).
  { intros d v He Hd. destruct (put_item_local d) as (w & Hw & Hk).
    exists w. split; [done |]. intros u it E. rewrite He, <- Hd. eauto. }
  unfold insert_entry, getitem. run.
  destruct (event !! "status") as [s |]; cbn; [| by exists (Raise KeyError)].
  destruct (py_eq s (VInt (-1))).
  - destruct (event !! "entryUUID") as [v |] eqn:Eu; cbn;
      [| by exists (Raise KeyError)].
    destruct (event !! "deviceID") as [dv |]; cbn;
      [| by exists (Raise KeyError)].
    apply (Hput _ v eq_refl). vm_compute. reflexivity.
  - destruct (py_eq s (VInt 0)); [| by exists (Ok None)].
    destruct (event !! "entryUUID") as [v |] eqn:Eu; cbn;
      [| by exists (Raise KeyError)].
    repeat match goal with
           | |- context [event !! ?k] =>
               destruct (event !! k) as [? |]; cbn;
               [| by exists (Raise KeyError)]
           | |- context [Decimal (repr ?x)] =>
               let e := fresh "e" in
               destruct (Decimal (repr x)) as [? | e]; cbn;
               [| by exists (Raise e)]
           end.
    apply (Hput _ v eq_refl). vm_compute. reflexivity.
Qed.

Lemma upserted_idem (dev : string) (rf : attr) (ts : Z) (t : gmap string item) :
  upserted dev rf ts (upserted dev rf ts t) = upserted dev rf ts t.
Proof.
  unfold upserted. rewrite lookup_insert_eq. cbn.
  rewrite insert_insert_eq. f_equal.
  apply map_eq. intros k.
  destruct (decide (k = "lastUpdated")) as [-> | ?];
    [by rewrite !lookup_insert_eq |].
  rewrite !(lookup_insert_ne _ "lastUpdated") by done.
  destruct (decide (k = "riskFactor")) as [-> | ?];
    [by rewrite !lookup_insert_eq |].
  rewrite !(lookup_insert_ne _ "riskFactor") by done.
  by rewrite !lookup_insert_ne by done.
Qed.

Lemma scan_all_sound : scan_sound scan_all.
Proof.
  intros t it Hit. unfold scan_all in Hit.
  apply list_elem_of_fmap in Hit as ([u it'] & -> & Hin).
  exists u. by apply elem_of_map_to_list.
Qed.

Lemma ok_entry_usable (event : dict) (uuid dev : string)
    (soil roll pitch ts : Z) :
  wf_entry (deserialize <$> ok_entry event uuid dev soil roll pitch ts) = true.
Proof. vm_compute. reflexivity. Qed.

Lemma tame_store_check (t : gmap string item) :
  forallb (fun it => implb (Attr_eq "status" (AN 0) it)
                           (wf_entry (deserialize <$> it)
                            && in_range (deserialize <$> it)))
    (map_to_list t).*2 = true ->
  tame_store t.
Proof.
  intros H u it Hl Hs.
  pose proof (proj1 (forallb_forall _ _) H it) as Hit. cbv beta in Hit.
  rewrite Hs in Hit. apply andb_prop. apply Hit.
  apply list_elem_of_In, list_elem_of_fmap. exists (u, it).
  split; [reflexivity | by apply elem_of_map_to_list].
Qed.

Lemma tame_store_insert (t : gmap string item) (u : string) (it : item) :
  tame_store t ->
  wf_entry (deserialize <$> it) = true -> in_range (deserialize <$> it) = true ->
  tame_store (<[u := it]> t).
Proof.
  intros Ht Hwf Hin u' it' Hl Hs.
  destruct (decide (u' = u)) as [-> | Hne].
  - rewrite lookup_insert_eq in Hl. injection Hl as <-. by split.
  - rewrite lookup_insert_ne in Hl by done. by eapply Ht.
Qed.

Lemma ok_entry_fields (event : dict) (uuid dev : string)
    (soil roll pitch ts : Z) :
  qfield (deserialize <$> ok_entry event uuid dev soil roll pitch ts) "soil"
  = inject_Z soil /\
  qfield (deserialize <$> ok_entry event uuid dev soil roll pitch ts) "roll"
  = inject_Z roll /\
  qfield (deserialize <$> ok_entry event uuid dev soil roll pitch ts) "pitch"
  = inject_Z pitch.
Proof. repeat split; vm_compute; reflexivity. Qed.

Lemma ok_entry_in_range (event : dict) (uuid dev : string)
    (soil roll pitch ts : Z) :
  (0 <= soil <= 1023)%Z -> (0 <= roll <= 180)%Z -> (0 <= pitch <= 90)%Z ->
  in_range (deserialize <$> ok_entry event uuid dev soil roll pitch ts) = true.
Proof.
  intros Hs Hr Hp. unfold in_range.
  destruct (ok_entry_fields event uuid dev soil roll pitch ts)
    as (-> & -> & ->).
  rewrite !andb_true_iff, !Qle_bool_iff.
  change 1023%Q with (inject_Z 1023). change 180%Q with (inject_Z 180).
  change 90%Q with (inject_Z 90).
  repeat split; try (apply inject_Z_nonneg; lia); rewrite <- Zle_Qle; lia.
Qed.

Lemma keyed_cons (key : dict -> result value) (x : dict) (l : list dict) :
  keyed key (x :: l) = (k ← key x; r ← keyed key l; Ok ((k, x) :: r)).
Proof. reflexivity. Qed.

Lemma keyed_KeyError (l : list dict) (x : dict) :
  x ∈ l -> x !! "createdDate" = None ->
  keyed (fun x => getitem x "createdDate") l = Raise KeyError.
Proof.
  intros Hx Hnone.
  induction Hx as [x l | x y l Hx IH]; rewrite keyed_cons; cbv beta.
  - unfold getitem. by rewrite Hnone.
  - rewrite (IH Hnone). unfold getitem. by destruct (y !! "createdDate").
Qed.

Section Invocations.
Variable scan_order : gmap string item -> list item.

(** What the Risk Aggregator does to the tables. *)
Lemma calculate_riskfactor_inv (event : dict) (roll pitch ts : Z)
    (st st' : store) (r : result unit) :
  calculate_riskfactor scan_order event roll pitch ts st = (r, st') ->
  st' = st \/
  exists dev rf a,
    event !! "deviceID" = Some (VStr dev) /\
    risk_factor_of event roll pitch
      (scan_items scan_order (AS dev) (entries_table st)) = Ok rf /\
    attr_of rf = Some a /\ r = Ok tt /\
    st' = Store (entries_table st) (upserted dev a ts (devices_table st)).
Proof.
  unfold calculate_riskfactor, getitem, scan. run.
  destruct (event !! "status") as [s |]; cbn; [| intros [= <- <-]; by left].
  destruct (py_eq s (VInt 0)); cbn; [| intros [= <- <-]; by left].
  destruct (event !! "deviceID") as [dv |]; cbn; [| intros [= <- <-]; by left].
  destruct (serialize dv) as [a |] eqn:Ea; cbn; [| intros [= <- <-]; by left].
  destruct (risk_factor_of _ _ _ _) as [rf |] eqn:Erf; cbn;
    [| intros [= <- <-]; by left].
  intros [(dev & a1 & a2 & -> & H1 & H2 & -> & ->) | [_ ->]]%update_item_inv;
    [right | by left].
  cbn in Ea, H2. injection Ea as <-. injection H2 as <-.
  by exists dev, rf, a1.
Qed.

(** The records an invocation writes: at most the entry under the event's
    [entryUUID] and the row of the event's [deviceID]. *)
Lemma handler_writes (event : dict) (ts : Z) (st st' : store)
    (r : result unit) :
  lambda_handler scan_order event ts st = (r, st') ->
  (entries_table st' = entries_table st \/
   exists uuid it,
     event !! "entryUUID" = Some (VStr uuid) /\
     entries_table st' = <[uuid := it]> (entries_table st)) /\
  (devices_table st' = devices_table st \/
   exists dev row,
     event !! "deviceID" = Some (VStr dev) /\ r = Ok tt /\
     devices_table st' = <[dev := row]> (devices_table st)).
Proof.
  unfold lambda_handler. run.
  destruct (roll_pitch event) as [[roll pitch] | e]; cbn;
    [| intros [= <- <-]; by split; left].
  destruct (insert_entry_local event roll pitch ts) as (w & Hw & Hk).
  rewrite Hw.
  assert (Hc : forall sta,
            entries_table sta = entries_table st \/
            (exists uuid it,
               event !! "entryUUID" = Some (VStr uuid) /\
               entries_table sta = <[uuid := it]> (entries_table st)) ->
            devices_table sta = devices_table st ->
            calculate_riskfactor scan_order event roll pitch ts sta = (r, st') ->
            (entries_table st' = entries_table st \/
             exists uuid it,
               event !! "entryUUID" = Some (VStr uuid) /\
               entries_table st' = <[uuid := it]> (entries_table st)) /\
            (devices_table st' = devices_table st \/
             exists dev row,
               event !! "deviceID" = Some (VStr dev) /\ r = Ok tt /\
               devices_table st' = <[dev := row]> (devices_table st))).
  { intros sta He Hd
      [-> | (dev & rf & a & Hdev & _ & _ & -> & ->)]%calculate_riskfactor_inv.
    - split; [done | by left].
    - cbn. split; [done |]. right. exists dev. eexists.
      split; [done |]. split; [done |]. unfold upserted. by rewrite Hd. }
  destruct w as [[[u it] |] | e]; cbn.
  - apply Hc; [| done]. right. exists u, it. split; [by eapply Hk | done].
  - apply Hc; [by left | done].
  - intros [= <- <-]. by split; left.
Qed.

(** X6: whatever the event and however the invocation ends, at most one record
    of each table is written: the entry under the event's [entryUUID] and the
    row of the event's [deviceID]; the device row only when the invocation
    completes.  Nothing is ever deleted. *)
Theorem handler_footprint (event : dict) (ts : Z) (st st' : store)
    (r : result unit) :
  lambda_handler scan_order event ts st = (r, st') ->
  (entries_table st' = entries_table st \/
   exists uuid it,
     event !! "entryUUID" = Some (VStr uuid) /\
     entries_table st' = <[uuid := it]> (entries_table st)) /\
  (devices_table st' = devices_table st \/
   exists dev row,
     event !! "deviceID" = Some (VStr dev) /\ r = Ok tt /\
     devices_table st' = <[dev := row]> (devices_table st)) /\
  dom (entries_table st) ⊆ dom (entries_table st') /\
  dom (devices_table st) ⊆ dom (devices_table st').
Proof.
  intros Hrun. destruct (handler_writes _ _ _ _ _ Hrun) as [He Hd].
  repeat split; try done.
  - destruct He as [-> | (u & it & _ & ->)]; [done |]. apply dom_insert_subseteq.
  - destruct Hd as [-> | (u & it & _ & _ & ->)]; [done |].
    apply dom_insert_subseteq.
Qed.

Lemma calculate_riskfactor_idem (event : dict) (roll pitch ts : Z)
    (st st' : store) :
  calculate_riskfactor scan_order event roll pitch ts st = (Ok tt, st') ->
  calculate_riskfactor scan_order event roll pitch ts st' = (Ok tt, st').
Proof.
  intros Hrun.
  pose proof Hrun as [-> | (dev & rf & a & Hdev & Hrf & Ha & _ & ->)]
    %calculate_riskfactor_inv; [done |].
  revert Hrun. unfold calculate_riskfactor, getitem, scan. run.
  destruct (event !! "status") as [s |]; cbn; [| discriminate].
  destruct (py_eq s (VInt 0)); cbn; [| intros [= E]; by rewrite <- E].
  rewrite Hdev. cbn. rewrite Hrf. cbn. intros _.
  rewrite (update_item_ok dev rf a) by done. cbn.
  by rewrite upserted_idem.
Qed.

(** X7: a second delivery of the same event at the same timestamp changes
    nothing: the entry is put again under its key, the retrieval returns the
    same sample, and the device row is set to the values it holds. *)
Theorem redelivery_is_idempotent (event : dict) (ts : Z) (st st1 : store) :
  lambda_handler scan_order event ts st = (Ok tt, st1) ->
  lambda_handler scan_order event ts st1 = (Ok tt, st1).
Proof.
  unfold lambda_handler. run.
  destruct (roll_pitch event) as [[roll pitch] | e]; cbn; [| discriminate].
  destruct (insert_entry_local event roll pitch ts) as (w & Hw & _).
  rewrite !Hw.
  destruct w as [[[u it] |] | e]; cbn; [| | discriminate].
  - intros Hc. pose proof (calculate_riskfactor_entries _ _ _ _ _ _ _ _ Hc) as He.
    cbn in He.
    assert (Hsta : Store (<[u := it]> (entries_table st1)) (devices_table st1)
                   = st1).
    { rewrite He, insert_insert_eq, <- He. by destruct st1. }
    rewrite Hsta. apply calculate_riskfactor_idem in Hc. exact Hc.
  - apply calculate_riskfactor_idem.
Qed.

Lemma scan_items_tame (dev : attr) (t : gmap string item) :
  scan_sound scan_order -> tame_store t ->
  forallb wf_entry (scan_items scan_order dev t) = true /\
  forallb in_range (scan_items scan_order dev t) = true.
Proof.
  intros Hsound Ht.
  assert (H : forall x, x ∈ scan_items scan_order dev t ->
                        wf_entry x = true /\ in_range x = true).
  { intros x Hx. unfold scan_items in Hx.
    apply list_elem_of_fmap in Hx as (it & -> & Hit).
    apply list_elem_of_In, filter_In in Hit as [Hit Hf].
    apply andb_prop in Hf as [_ Hs].
    apply list_elem_of_In, subseteq_take, Hsound in Hit as [u Hu].
    by eapply Ht. }
  split; apply forallb_forall; intros x Hx%list_elem_of_In; by apply H.
Qed.

(** X9: a history made of valid events never makes the handler fail.  On a
    table whose status-OK entries are usable and in the documented ranges,
    a valid status-OK event within the limits of the store and with [soil]
    in [[0, 1023]] is handled to the end: its entry is put under its
    [entryUUID], the device row holds a risk factor in [[0, 4]] and the
    timestamp, and the table is again usable and in range. *)
Theorem valid_events_never_fail (event : dict) (uuid dev : string)
    (soil ts : Z) (st : store) :
  scan_sound scan_order ->
  tame_store (entries_table st) ->
  valid_ok_event event uuid dev soil ->
  within_limits event = true -> int_limits ts = true ->
  (0 <= soil <= 1023)%Z ->
  exists entry st',
    lambda_handler scan_order event ts st = (Ok tt, st') /\
    entries_table st' = <[uuid := entry]> (entries_table st) /\
    tame_store (entries_table st') /\
    exists row q,
      devices_table st' !! dev = Some row /\
      row !! "riskFactor" = Some (AN q) /\ (0 <= q <= 4)%Q /\
      row !! "lastUpdated" = Some (AN (inject_Z ts)).
Proof.
  intros Hsound Hst Hv _ _ Hsoil.
  destruct (valid_axes event uuid dev soil Hv)
    as (vx & vy & vz & Hx & Hy & Hz & Jx & Jy & Jz).
  pose proof (roll_pitch_json event vx vy vz Hx Hy Hz Jx Jy Jz) as Hrp.
  cbv zeta in Hrp.
  destruct (degrees_in_range (- real_of vx) (real_of vz) (real_of vy))
    as [Hroll Hpitch].
  unfold PyMath.to_degrees in Hroll, Hpitch.
  set (roll := PyMath.py_round
                  (Rabs (PyMath.atan2 (real_of vz) (real_of vy)) * PyMath.deg))
    in *.
  set (pitch := PyMath.py_round
                  (Rabs (PyMath.atan2 (- real_of vx) _) * PyMath.deg)) in *.
  set (entry := ok_entry event uuid dev soil roll pitch ts).
  assert (Htame : tame_store (<[uuid := entry]> (entries_table st))).
  { apply tame_store_insert; [done | apply ok_entry_usable |].
    apply ok_entry_in_range; assumption. }
  destruct (scan_items_tame (AS dev) _ Hsound Htame) as [Hwf Hrange].
  destruct (risk_factor_of_bounded event soil roll pitch _
              (ev_soil _ _ _ _ Hv) Hsoil Hroll Hpitch Hwf Hrange)
    as (v & q & Hrfv & Hattr & Hq).
  exists entry. eexists. split.
  - rewrite (handler_on_valid scan_order _ _ _ _ _ _ _ _ Hv Hrp).
    cbn [entries_table]. fold entry. rewrite Hrfv.
    by rewrite (update_item_ok dev v (AN q) ts _ Hattr).
  - cbn [entries_table devices_table]. split; [done |]. split; [done |].
    destruct (upserted_risk dev (AN q) ts (devices_table st))
      as (row & Hrow & Hr1 & Hr2).
    by exists row, q.
Qed.

(** X10: the two writes are not one transaction.  When the sample has at least
    three entries and one of them has no [createdDate], the sort key raises
    [KeyError]: the event's entry has been written by then and stays, and
    the device row is not updated. *)
Theorem entry_survives_failed_aggregation (event : dict) (uuid dev : string)
    (soil roll pitch ts : Z) (st : store) (x : dict) :
  valid_ok_event event uuid dev soil ->
  roll_pitch event = Ok (roll, pitch) ->
  let entries' := <[uuid := ok_entry event uuid dev soil roll pitch ts]>
                    (entries_table st) in
  (3 <= length (scan_items scan_order (AS dev) entries'))%nat ->
  x ∈ scan_items scan_order (AS dev) entries' ->
  x !! "createdDate" = None ->
  lambda_handler scan_order event ts st
  = (Raise KeyError, Store entries' (devices_table st)).
Proof.
  intros Hv Hrp entries' Hlen Hx Hnone.
  rewrite (handler_on_valid scan_order _ _ _ _ _ _ _ _ Hv Hrp).
  cbn [entries_table]. fold entries'.
  unfold risk_factor_of.
  destruct (Nat.ltb_spec 2 (length (scan_items scan_order (AS dev) entries')))
    as [_ | H]; [| lia].
  unfold sort_by. by rewrite (keyed_KeyError _ x Hx Hnone).
Qed.

(** X11: [Limit=10] bounds the items the scan evaluates, not the items it
    returns.  When fewer than three of the first ten items of the walk are
    status-OK entries of the device, the risk factor is reset to [0],
    however many entries the device has further on. *)
Theorem limit_bounds_the_walk (event : dict) (uuid dev : string)
    (soil roll pitch ts : Z) (st : store) :
  valid_ok_event event uuid dev soil ->
  roll_pitch event = Ok (roll, pitch) ->
  let entries' := <[uuid := ok_entry event uuid dev soil roll pitch ts]>
                    (entries_table st) in
  (length (List.filter (matching dev) (take 10 (scan_order entries'))) < 3)%nat ->
  (length (scan_items scan_order (AS dev) entries') <= 10)%nat /\
  lambda_handler scan_order event ts st =
    (Ok tt, Store entries' (upserted dev (AN 0) ts (devices_table st))).
Proof.
  intros Hv Hrp entries' Hlen. split.
  - unfold scan_items. rewrite length_fmap.
    etransitivity; [apply List.filter_length_le |].
    rewrite length_take. lia.
  - apply (handler_resets scan_order _ _ _ _ _ _ _ _ Hv Hrp).
    fold entries'. unfold scan_items. by rewrite length_fmap.
Qed.

(** The Entry Writer completes by putting the entry under the event's key,
    or, for a status that is neither [0] nor [-1], without writing. *)
Lemma insert_entry_Ok_inv (event : dict) (roll pitch ts : Z) (st st' : store) :
  insert_entry event roll pitch ts st = (Ok tt, st') ->
  (exists uuid it,
     event !! "entryUUID" = Some (VStr uuid) /\
     st' = Store (<[uuid := it]> (entries_table st)) (devices_table st)) \/
  (st' = st /\
   exists s, event !! "status" = Some s /\
             py_eq s (VInt 0) = false /\ py_eq s (VInt (-1)) = false).
Proof.
  assert (Hput : forall d v,
            event !! "entryUUID" = Some v -> d !! "entryUUID" = Some v ->
            put_item d st = (Ok tt, st') ->
            exists uuid it,
              event !! "entryUUID" = Some (VStr uuid) /\
              st' = Store (<[uuid := it]> (entries_table st))
                          (devices_table st)).
  { intros d v He Hd [(uuid & Hu & _ & -> & _) | [[? ?] _]]%put_item_inv;
      [| discriminate].
    exists uuid. eexists. split; [congruence | reflexivity]. }
  unfold insert_entry, getitem. run.
  destruct (event !! "status") as [s |]; cbn; [| discriminate].
  destruct (py_eq s (VInt (-1))) eqn:E1.
  - destruct (event !! "entryUUID") as [v |] eqn:Eu; cbn; [| discriminate].
    destruct (event !! "deviceID") as [dv |]; cbn; [| discriminate].
    intros H. left. apply (Hput _ v eq_refl) in H; [done |].
    vm_compute. reflexivity.
  - destruct (py_eq s (VInt 0)) eqn:E0;
      [| intros [= <-]; right; split; [done | by exists s]].
    destruct (event !! "entryUUID") as [v |] eqn:Eu; cbn; [| discriminate].
    repeat match goal with
           | |- context [event !! ?k] =>
               destruct (event !! k) as [? |]; cbn; [| discriminate]
           | |- context [Decimal (repr ?x)] =>
               destruct (Decimal (repr x)); cbn; [| discriminate]
           end.
    intros H. left. apply (Hput _ v eq_refl) in H; [done |].
    vm_compute. reflexivity.
Qed.

(** X8: a retry of an event that had been handled overwrites and never
    duplicates.  Delivered again at any later time and with whatever
    outcome, the event adds no key to the entries table: at most the record
    under its own [entryUUID] changes. *)
Theorem redelivery_adds_no_entry (event : dict) (ts ts' : Z)
    (st st1 st2 : store) (r : result unit) :
  lambda_handler scan_order event ts st = (Ok tt, st1) ->
  lambda_handler scan_order event ts' st1 = (r, st2) ->
  dom (entries_table st2) = dom (entries_table st1) /\
  (forall u, event !! "entryUUID" <> Some (VStr u) ->
             entries_table st2 !! u = entries_table st1 !! u).
Proof.
  intros H1 H2.
  destruct (handler_writes _ _ _ _ _ H2) as [Hfoot _].
  split.
  - revert H1. unfold lambda_handler. run.
    destruct (roll_pitch event) as [[roll pitch] | e] eqn:Hrp; cbn;
      [| discriminate].
    destruct (insert_entry event roll pitch ts st) as [[[] | e] sta] eqn:Hi;
      [| discriminate].
    intros Hc%calculate_riskfactor_entries.
    apply insert_entry_Ok_inv in Hi
      as [(u & it & Hu & ->) | (-> & s & Hs & E0 & E1)].
    + destruct Hfoot as [-> | (u2 & it2 & Hu2 & ->)]; [done |].
      cbn in Hc. assert (u2 = u) as -> by congruence.
      rewrite Hc, !dom_insert_L. apply set_eq. intros x.
      rewrite !elem_of_union. tauto.
    + assert (Hsteps :
                insert_entry event roll pitch ts' st1 = (Ok tt, st1) /\
                calculate_riskfactor scan_order event roll pitch ts' st1
                = (Ok tt, st1)).
      { unfold insert_entry, calculate_riskfactor, getitem. run.
        rewrite Hs. cbn. by rewrite E0, E1. }
      destruct Hsteps as [Hi' Hc'].
      revert H2. unfold lambda_handler. run. rewrite Hrp. cbn.
      rewrite Hi', Hc'. intros [= ? ?]. by subst.
  - intros u Hu. destruct Hfoot as [-> | (u2 & it2 & Hu2 & ->)]; [done |].
    apply lookup_insert_ne. congruence.
Qed.

End Invocations.

(** ** The derived angles and the program's doubles *)

(** Away from a tie, every value within the margin rounds to the same
    integer. *)
Lemma py_round_stable (a r : R) :
  away_from_tie a -> (Rabs (r - a) <= tie_margin)%R ->
  PyMath.py_round r = PyMath.py_round a.
Proof.
  intros Ha Hr.
  destruct (PyMathFacts.py_round_near a) as [Hlo Hhi].
  set (n := PyMath.py_round a) in *.
  pose proof (Ha n) as Hup. pose proof (Ha (n - 1)%Z) as Hdown.
  rewrite minus_IZR in Hdown.
  unfold tie_margin in *.
  assert (Hr' : (- (1 / 1000000000) <= r - a <= 1 / 1000000000)%R)
    by (revert Hr; unfold Rabs; destruct (Rcase_abs _); lra).
  assert (H : (n <= PyMath.py_round r <= n)%Z).
  { apply PyMathFacts.py_round_range.
    - revert Hdown. unfold Rabs. destruct (Rcase_abs _); lra.
    - revert Hup. unfold Rabs. destruct (Rcase_abs _); lra. }
  lia.
Qed.

Section Angles.
Variable scan_order : gmap string item -> list item.

(** C3: the angles are computed on the remapped axes [y = accl_z],
    [z = accl_y], [x = accl_x], as [round(|atan2(y, z)| * 57.3)] and
    [round(|atan2(-x, sqrt(y*y + z*z))| * 57.3)]; these are the angles the
    handler passes to its two steps, and the constant [57.3] is not
    [180/pi].  The formula is over the reals and the program's is in
    doubles: the statement is for axes whose squares stay in the range of
    the doubles, of which [y] and [z] are not both zero (the sign of a zero
    is not represented), and for angles away from a rounding tie, where any
    evaluation within [tie_margin] of the exact one rounds to the same
    degree. *)
Theorem roll_pitch_formula (event : dict) (vx vy vz : value) (ts : Z) :
  event !! "accl_x" = Some vx -> event !! "accl_y" = Some vy ->
  event !! "accl_z" = Some vz ->
  json_number vx = true -> json_number vy = true -> json_number vz = true ->
  number_limits (number_of vx) = true ->
  number_limits (number_of vy) = true ->
  number_limits (number_of vz) = true ->
  Qeq_bool (number_of vz) 0 && Qeq_bool (number_of vy) 0 = false ->
  let x := real_of vx in
  let y := real_of vz in
  let z := real_of vy in
  let roll_angle := (Rabs (PyMath.atan2 y z) * (573 / 10))%R in
  let pitch_angle :=
    (Rabs (PyMath.atan2 (- x) (sqrt (y * y + z * z))) * (573 / 10))%R in
  away_from_tie roll_angle -> away_from_tie pitch_angle ->
  let roll := PyMath.py_round roll_angle in
  let pitch := PyMath.py_round pitch_angle in
  roll_pitch event = Ok (roll, pitch) /\
  (forall r, (Rabs (r - roll_angle) <= tie_margin)%R ->
             PyMath.py_round r = roll) /\
  (forall r, (Rabs (r - pitch_angle) <= tie_margin)%R ->
             PyMath.py_round r = pitch) /\
  (forall st,
     lambda_handler scan_order event ts st =
       (_ ← insert_entry event roll pitch ts;
        calculate_riskfactor scan_order event roll pitch ts) st) /\
  (573 / 10 * PI <> 180)%R.
Proof.
  intros Hx Hy Hz Jx Jy Jz _ _ _ _ x y z roll_angle pitch_angle Troll Tpitch
    roll pitch.
  assert (Hrp : roll_pitch event = Ok (roll, pitch))
    by exact (roll_pitch_json event vx vy vz Hx Hy Hz Jx Jy Jz).
  split; [exact Hrp |].
  split; [intros r Hr; by apply py_round_stable |].
  split; [intros r Hr; by apply py_round_stable |].
  split; [| exact deg_not_radian].
  intros st. by apply lambda_handler_eq.
Qed.

End Angles.

(** ** Malformed and boolean axes *)

(** The angle computation reads a [bool] axis as the [int] it stands for. *)
Lemma roll_pitch_bool (event : dict) (name : string) (b : bool) :
  name ∈ ["accl_x"; "accl_y"; "accl_z"] ->
  event !! name = Some (VBool b) ->
  roll_pitch event = roll_pitch (<[name := VInt (Z.b2z b)]> event).
Proof.
  intros Hin Hb.
  repeat (apply elem_of_cons in Hin as [-> | Hin]);
    [| | | by apply elem_of_nil in Hin];
    unfold roll_pitch, getitem;
    rewrite Hb, ?lookup_insert_eq, ?lookup_insert_ne by done;
    reflexivity.
Qed.

Section Malformed.
Variable scan_order : gmap string item -> list item.

(** C7, amended: when one of [accl_x], [accl_y], [accl_z] is missing or is
    [None] or a string, whatever the status, the angle computation raises
    and the invocation ends there: both tables are as they were.  The
    exception is [KeyError] or [TypeError] when the event is within the
    limits of the store.  A JSON [true] or [false] is not such a field:
    Python computes with it as with [1] or [0], and the angles are those of
    that number. *)
Theorem malformed_axes_fail_before_any_write (event : dict) (name : string)
    (ts : Z) (st : store) :
  name ∈ ["accl_x"; "accl_y"; "accl_z"] ->
  (is_number (event !! name) = false ->
   exists e,
     roll_pitch event = Raise e /\
     lambda_handler scan_order event ts st = (Raise e, st) /\
     (within_limits event = true -> e = KeyError \/ e = TypeError)) /\
  (forall b, event !! name = Some (VBool b) ->
     is_number (event !! name) = true /\
     roll_pitch event = roll_pitch (<[name := VInt (Z.b2z b)]> event)).
Proof.
  intros Hin. split.
  - intros Hnum.
    assert (H : exists e, (e = KeyError \/ e = TypeError) /\
                          roll_pitch event = Raise e).
    { unfold roll_pitch, getitem, float_of. run.
      destruct (event !! "accl_x") as [vx |] eqn:Ex; cbn; [| by eauto].
      destruct (event !! "accl_z") as [vz |] eqn:Ez; cbn; [| by eauto].
      destruct (event !! "accl_y") as [vy |] eqn:Ey; cbn; [| by eauto].
      destruct (num_of vz) as [qz |] eqn:Nz; cbn; [| by eauto].
      destruct (num_of vy) as [qy |] eqn:Ny; cbn; [| by eauto].
      destruct (num_of vx) as [qx |] eqn:Nx.
      - exfalso. unfold is_number in Hnum.
        repeat (apply elem_of_cons in Hin as [-> | Hin]);
          [rewrite Ex, Nx in Hnum | rewrite Ey, Ny in Hnum
          | rewrite Ez, Nz in Hnum | by apply elem_of_nil in Hin];
          discriminate.
      - destruct vx; cbn in Nx; try discriminate; cbn; by eauto. }
    destruct H as (e & He & Hrp). exists e.
    split; [exact Hrp |]. split; [by apply lambda_handler_raise | done].
  - intros b Hb. split; [by rewrite Hb |]. by apply roll_pitch_bool.
Qed.

End Malformed.

(** ** Frame and completion of the device upsert *)

Section Frame.
Variable scan_order : gmap string item -> list item.

(** C8, amended: for a status-OK event the Risk Aggregator leaves the
    entries table as it is and, when it completes, has set exactly
    [riskFactor] and [lastUpdated] (the invocation's timestamp) on the row
    of the event's device, created with its key if absent; every other
    attribute of that row and every other row are unchanged.  It does
    complete, with a risk factor in [[0, 4]], on the documented ranges
    and within the limits of the store.
    Through the whole handler no entry is removed, and every entry stored
    under another [entryUUID] than the event's own is unchanged; the record
    under the event's own [entryUUID] is the one the Entry Writer puts, in
    place of what the table held there. *)
Theorem device_upsert_frame (event : dict) (s : value) (roll pitch ts : Z)
    (st st' : store) (r : result unit) :
  event !! "status" = Some s -> py_eq s (VInt 0) = true ->
  calculate_riskfactor scan_order event roll pitch ts st = (r, st') ->
  entries_table st' = entries_table st /\
  (((exists e, r = Raise e) /\ devices_table st' = devices_table st) \/
   (exists dev rf row',
      r = Ok tt /\ event !! "deviceID" = Some (VStr dev) /\
      devices_table st' !! dev = Some row' /\
      row' !! "riskFactor" = Some rf /\
      row' !! "lastUpdated" = Some (AN (inject_Z ts)) /\
      (forall f, f <> "riskFactor" -> f <> "lastUpdated" ->
         row' !! f
         = default {["deviceID" := AS dev]} (devices_table st !! dev) !! f) /\
      (forall d, d <> dev ->
         devices_table st' !! d = devices_table st !! d))) /\
  (forall dev soil,
     event !! "deviceID" = Some (VStr dev) -> key_limits dev = true ->
     event !! "soil" = Some (VInt soil) -> (0 <= soil <= 1023)%Z ->
     (0 <= roll <= 180)%Z -> (0 <= pitch <= 90)%Z -> int_limits ts = true ->
     forallb wf_entry (scan_items scan_order (AS dev) (entries_table st))
     = true ->
     forallb in_range (scan_items scan_order (AS dev) (entries_table st))
     = true ->
     r = Ok tt /\
     exists row q,
       devices_table st' !! dev = Some row /\
       row !! "riskFactor" = Some (AN q) /\ (0 <= q <= 4)%Q) /\
  (forall r2 st2,
     lambda_handler scan_order event ts st = (r2, st2) ->
     dom (entries_table st) ⊆ dom (entries_table st2) /\
     (forall u it,
        entries_table st !! u = Some it ->
        event !! "entryUUID" <> Some (VStr u) ->
        entries_table st2 !! u = Some it) /\
     (entries_table st2 = entries_table st \/
      exists u it,
        event !! "entryUUID" = Some (VStr u) /\
        entries_table st2 = <[u := it]> (entries_table st))).
Proof.
  intros Hs Hok Hrun. split; [by eapply calculate_riskfactor_entries |].
  split; [| split].
  - revert Hrun. unfold calculate_riskfactor, getitem, scan. run.
    rewrite Hs. cbn. rewrite Hok. cbn.
    destruct (event !! "deviceID") as [dv |]; cbn;
      [| intros [= <- <-]; left; eauto].
    destruct (serialize dv); cbn; [| intros [= <- <-]; left; eauto].
    destruct (risk_factor_of _ _ _ _) as [rf | e]; cbn;
      [| intros [= <- <-]; left; eauto].
    intros [(dev & a1 & a2 & -> & H1 & H2 & -> & ->) | [He ->]]%update_item_inv;
      [right | by left].
    cbn in H2. injection H2 as <-.
    eexists dev, a1, _. cbn [devices_table].
    split; [done |]. split; [done |].
    split; [apply lookup_insert_eq |].
    split; [rewrite lookup_insert_ne by done; apply lookup_insert_eq |].
    split; [apply lookup_insert_eq |].
    split.
    + intros f Hf1 Hf2. by rewrite !lookup_insert_ne.
    + intros d Hd. by rewrite lookup_insert_ne.
  - intros dev soil Hd _ Hsoil Hsr Hr Hp _ Hwf Hrange.
    destruct (risk_factor_of_bounded event soil roll pitch _ Hsoil Hsr Hr Hp
                Hwf Hrange) as (v & q & Hrf & Hv & Hq).
    revert Hrun. unfold calculate_riskfactor, getitem, scan. run.
    rewrite Hs. cbn. rewrite Hok. cbn. rewrite Hd. cbn. rewrite Hrf. cbn.
    rewrite (update_item_ok dev v (AN q) ts st Hv).
    intros [= <- <-]. split; [done |]. cbn [devices_table].
    destruct (upserted_risk dev (AN q) ts (devices_table st))
      as (row & Hrow & Hr1 & _).
    by exists row, q.
  - intros r2 st2 Hh.
    assert (Hfoot : entries_table st2 = entries_table st \/
                    exists u it,
                      event !! "entryUUID" = Some (VStr u) /\
                      entries_table st2 = <[u := it]> (entries_table st)).
    { revert Hh. unfold lambda_handler. run.
      destruct (roll_pitch event) as [[roll' pitch'] | e]; cbn;
        [| intros [= <- <-]; by left].
      destruct (insert_entry_local event roll' pitch' ts) as (w & Hw & Hk).
      rewrite Hw. destruct w as [[[u it] |] | e]; cbn.
      - intros Hc%calculate_riskfactor_entries. right. exists u, it.
        split; [by eapply Hk | done].
      - intros Hc%calculate_riskfactor_entries. by left.
      - intros [= <- <-]. by left. }
    split; [| split; [| exact Hfoot]].
    + destruct Hfoot as [-> | (u & it & _ & ->)]; [done |].
      apply dom_insert_subseteq.
    + intros u it Hu Hne.
      destruct Hfoot as [-> | (u' & it' & Hu' & ->)]; [done |].
      rewrite lookup_insert_ne; [done | congruence].
Qed.

End Frame.

(** * Scenarios *)

Section Scenario.
Import PyMath PyMathFacts.

Lemma to_degrees_eighth_turn : to_degrees (atan2 (Ropp 1) 1) = 45%Z.
Proof.
  unfold atan2.
  destruct (Rlt_dec 0 1) as [_ | H]; [| lra].
  replace (Ropp 1 / 1)%R with (Ropp 1) by field.
  rewrite atan_opp, atan_1.
  pose proof PI_lower as Hlo. pose proof PI_upper as Hhi.
  unfold to_degrees, deg. rewrite Rabs_Ropp, Rabs_pos_eq by lra.
  assert (H : (45 <= py_round (PI / 4 * (573 / 10)) <= 45)%Z)
    by (apply py_round_range; lra).
  lia.
Qed.

(** An accelerometer reading of [(1, 0, 1)] is a roll of 90 and a pitch of
    45 degrees. *)
Lemma unit_axes_roll_pitch (event : dict) :
  event !! "accl_x" = Some (VFloat 1) ->
  event !! "accl_y" = Some (VFloat 0) ->
  event !! "accl_z" = Some (VFloat 1) ->
  roll_pitch event = Ok (90%Z, 45%Z).
Proof.
  intros Hx Hy Hz.
  rewrite (roll_pitch_json event (VFloat 1) (VFloat 0) (VFloat 1));
    try done.
  unfold real_of. cbn [num_of].
  rewrite RMicromega.Q2R_0, RMicromega.Q2R_1.
  replace (1 * 1 + 0 * 0)%R with 1%R by ring. rewrite sqrt_1.
  change (py_round (Rabs (atan2 1 0) * deg)) with (to_degrees (atan2 1 0)).
  change (py_round (Rabs (atan2 (Ropp 1) 1) * deg))
    with (to_degrees (atan2 (Ropp 1) 1)).
  by rewrite to_degrees_quarter_turn, to_degrees_eighth_turn.
Qed.

Lemma demo_event_valid : valid_ok_event demo_event "e4" "D1" 500.
Proof. split; vm_compute; reflexivity. Qed.

Lemma demo_roll_pitch : roll_pitch demo_event = Ok (90%Z, 45%Z).
Proof. apply unit_axes_roll_pitch; vm_compute; reflexivity. Qed.

Lemma error_roll_pitch : roll_pitch error_event = Ok (90%Z, 45%Z).
Proof. apply unit_axes_roll_pitch; vm_compute; reflexivity. Qed.

Lemma unknown_roll_pitch : roll_pitch unknown_event = Ok (90%Z, 45%Z).
Proof. apply unit_axes_roll_pitch; vm_compute; reflexivity. Qed.

(** Evaluates the closed left-hand side of an equation. *)
Ltac evaluate_lhs :=
  match goal with
  | |- ?l = _ =>
      let v := eval vm_compute in l in
      transitivity v; [vm_compute; reflexivity |]
  end.

(** The run of the handler on the sensor-fault event. *)
Lemma error_event_run :
  lambda_handler scan_all error_event 4000 demo_store =
    (Ok tt,
     Store (<["e4" := list_to_map
                        [("entryUUID", AS "e4"); ("status", AN (-1));
                         ("deviceID", AS "D1"); ("createdDate", AN 4000)]]>
              (entries_table demo_store))
           (devices_table demo_store)).
Proof.
  rewrite (lambda_handler_eq scan_all _ _ _ _ _ error_roll_pitch).
  vm_compute. reflexivity.
Qed.

(** The Risk Aggregator's step on the scenario's event, once its entry is
    written. *)
Lemma demo_aggregation :
  exists rf,
    calculate_riskfactor scan_all demo_event 90 45 4000
      (Store (<["e4" := ok_entry demo_event "e4" "D1" 500 90 45 4000]>
                (entries_table demo_store)) (devices_table demo_store))
    = (Ok tt,
       Store (<["e4" := ok_entry demo_event "e4" "D1" 500 90 45 4000]>
                (entries_table demo_store))
             (upserted "D1" (AN rf) 4000 (devices_table demo_store))).
Proof. eexists. evaluate_lhs. vm_compute. reflexivity. Qed.

(** ** The claims on the scenarios *)

Lemma risk_factor_formula_witness :
  exists e0 e1 rest,
    sort_by (fun x => getitem x "createdDate") demo_sample
      = Ok (e0 :: e1 :: rest) /\
    e0 :: e1 :: rest ≡ₚ demo_sample /\
    StronglySorted by_date (e0 :: e1 :: rest) /\
    let k0 := risk_k (qfield e0 "soil") (qfield e0 "roll") (qfield e0 "pitch") in
    let k1 := risk_k (qfield e1 "soil") (qfield e1 "roll") (qfield e1 "pitch") in
    let d := Qabs (k0 - k1) in
    let k_cur := risk_k (inject_Z 500) (inject_Z 90) (inject_Z 45) in
    lambda_handler scan_all demo_event 4000 demo_store =
      (Ok tt,
       Store (<["e4" := ok_entry demo_event "e4" "D1" 500 90 45 4000]>
                (entries_table demo_store))
             (upserted "D1" (AN (d * k_cur)) 4000 (devices_table demo_store))).
Proof.
  apply (risk_factor_formula scan_all demo_event "e4" "D1" 500 90 45 4000
           demo_store demo_sample demo_event_valid demo_roll_pitch eq_refl).
  - vm_compute. lia.
  - vm_compute. reflexivity.
Defined.

(** With one earlier entry the device is reset to [0]. *)
Lemma insufficient_history_resets_witness :
  lambda_handler scan_all demo_event 4000 one_prior_store =
    (Ok tt,
     Store (<["e4" := ok_entry demo_event "e4" "D1" 500 90 45 4000]>
              (entries_table one_prior_store))
           (upserted "D1" (AN 0) 4000 (devices_table one_prior_store))).
Proof.
  apply (insufficient_history_resets scan_all demo_event "e4" "D1" 500 90 45
           4000 one_prior_store (fun t => reflexivity _)
           demo_event_valid demo_roll_pitch).
  vm_compute. lia.
Defined.

(** With two earlier entries (fewer than three) the device is not reset:
    the retrieval counts the event's own entry, the sample has three
    entries, and the stored risk factor is
    [|k(100,10,5) - k(200,20,10)| * k(500,90,45)], which is not [0]. *)
Lemma two_prior_entries_not_reset :
  valid_ok_event demo_event "e4" "D1" 500 /\
  length (matching_entries "D1" (entries_table two_prior_store)) = 2%nat /\
  exists q,
    lambda_handler scan_all demo_event 4000 two_prior_store =
      (Ok tt,
       Store (<["e4" := ok_entry demo_event "e4" "D1" 500 90 45 4000]>
                (entries_table two_prior_store))
             (upserted "D1" (AN q) 4000 (devices_table two_prior_store))) /\
    (q == Qabs (risk_k 100 10 5 - risk_k 200 20 10) * risk_k 500 90 45)%Q /\
    (0 < q)%Q /\
    upserted "D1" (AN q) 4000 (devices_table two_prior_store)
    <> upserted "D1" (AN 0) 4000 (devices_table two_prior_store).
Proof.
  split; [exact demo_event_valid |]. split; [vm_compute; reflexivity |].
  eexists. split; [| split; [| split]].
  - rewrite (handler_on_valid scan_all _ _ _ _ _ _ _ _
               demo_event_valid demo_roll_pitch).
    evaluate_lhs. vm_compute. reflexivity.
  - vm_compute. reflexivity.
  - vm_compute. reflexivity.
  - intros H. apply (f_equal (fun t => t !! "D1" ≫= (.!! "riskFactor"))) in H.
    vm_compute in H. discriminate H.
Qed.

Lemma roll_pitch_in_range_witness :
  exists roll pitch entry,
    roll_pitch demo_event = Ok (roll, pitch) /\
    (0 <= roll <= 180)%Z /\ (0 <= pitch <= 90)%Z /\
    insert_entry demo_event roll pitch 4000 demo_store =
      (Ok tt, Store (<["e4" := entry]> (entries_table demo_store))
                    (devices_table demo_store)) /\
    entry !! "roll" = Some (AN (inject_Z roll)) /\
    entry !! "pitch" = Some (AN (inject_Z pitch)).
Proof.
  exact (roll_pitch_in_range demo_event "e4" "D1" 500 4000 demo_store
           demo_event_valid).
Defined.

Lemma sensor_error_entry_witness :
  exists r st',
    lambda_handler scan_all error_event 4000 demo_store = (r, st') /\
    r = Ok tt /\
    devices_table st' = devices_table demo_store /\
    exists entry,
      entries_table st' = <["e4" := entry]> (entries_table demo_store) /\
      dom entry = {["entryUUID"; "status"; "deviceID"; "createdDate"]}.
Proof.
  eexists _, _. split; [exact error_event_run |].
  destruct (sensor_error_entry scan_all error_event (VInt (-1)) 4000
              demo_store _ _ ltac:(vm_compute; reflexivity) eq_refl
              error_event_run)
    as (Hdev & [[[e He] _] | (uuid & entry & _ & Hu & Hent & Hdom & _)] & _).
  - discriminate He.
  - split; [reflexivity |]. split; [exact Hdev |].
    exists entry. split; [| exact Hdom].
    assert (uuid = "e4") as ->; [| exact Hent].
    vm_compute in Hu. by injection Hu.
Defined.

Lemma risk_factor_nonnegative_witness :
  exists roll pitch,
    roll_pitch demo_event = Ok (roll, pitch) /\
    (0 <= roll <= 180)%Z /\ (0 <= pitch <= 90)%Z /\
    let sample :=
      scan_items scan_all (AS "D1")
        (<["e4" := ok_entry demo_event "e4" "D1" 500 roll pitch 4000]>
           (entries_table demo_store)) in
    (forall st',
       lambda_handler scan_all demo_event 4000 demo_store = (Ok tt, st') ->
       exists row q,
         devices_table st' !! "D1" = Some row /\
         row !! "riskFactor" = Some (AN q) /\ (0 <= q)%Q /\
         row !! "lastUpdated" = Some (AN (inject_Z 4000))) /\
    (forallb wf_entry sample = true ->
     exists st', lambda_handler scan_all demo_event 4000 demo_store = (Ok tt, st')).
Proof.
  apply (risk_factor_nonnegative scan_all demo_event "e4" "D1" 500 4000
           demo_store demo_event_valid).
  lia.
Defined.

Lemma unknown_status_writes_nothing_witness :
  lambda_handler scan_all unknown_event 4000 demo_store = (Ok tt, demo_store).
Proof.
  refine (proj2 (proj2 (unknown_status_writes_nothing scan_all unknown_event
                          (VInt 5) 4000 demo_store _ _ _))
            90%Z 45%Z unknown_roll_pitch).
  - vm_compute. reflexivity.
  - reflexivity.
  - reflexivity.
Defined.

Lemma atan2_quarter_turn : atan2 1 0 = (PI / 2)%R.
Proof.
  unfold atan2.
  destruct (Rlt_dec 0 0) as [H | _]; [lra |].
  destruct (Rlt_dec 0 0) as [H | _]; [lra |].
  destruct (Rlt_dec 0 1) as [_ | H]; [reflexivity | lra].
Qed.

Lemma atan2_eighth_turn : atan2 (Ropp 1) 1 = (- (PI / 4))%R.
Proof.
  unfold atan2.
  destruct (Rlt_dec 0 1) as [_ | H]; [| lra].
  replace (Ropp 1 / 1)%R with (Ropp 1) by field.
  by rewrite atan_opp, atan_1.
Qed.

(** A value strictly between two consecutive ties is away from every
    tie. *)
Lemma between_ties (r : R) (n : Z) :
  (IZR n - 1 / 2 + tie_margin < r < IZR n + 1 / 2 - tie_margin)%R ->
  away_from_tie r.
Proof.
  intros [Hlo Hhi] k. unfold tie_margin in *.
  destruct (Z_le_gt_dec k (n - 1)) as [Hk | Hk].
  - apply IZR_le in Hk. rewrite minus_IZR in Hk.
    unfold Rabs. destruct (Rcase_abs _); lra.
  - assert (Hk' : (n <= k)%Z) by lia. apply IZR_le in Hk'.
    unfold Rabs. destruct (Rcase_abs _); lra.
Qed.

Lemma unit_roll_angle :
  away_from_tie
    (Rabs (atan2 (real_of (VFloat 1)) (real_of (VFloat 0))) * (573 / 10)).
Proof.
  unfold real_of. cbn [num_of].
  rewrite RMicromega.Q2R_0, RMicromega.Q2R_1, atan2_quarter_turn.
  pose proof PI_lower as Hlo. pose proof PI_upper as Hhi.
  rewrite Rabs_pos_eq by lra.
  apply (between_ties _ 90). unfold tie_margin. lra.
Qed.

Lemma unit_pitch_angle :
  away_from_tie
    (Rabs (atan2 (- real_of (VFloat 1))
             (sqrt (real_of (VFloat 1) * real_of (VFloat 1)
                    + real_of (VFloat 0) * real_of (VFloat 0))))
     * (573 / 10)).
Proof.
  unfold real_of. cbn [num_of].
  rewrite RMicromega.Q2R_0, RMicromega.Q2R_1.
  replace (1 * 1 + 0 * 0)%R with 1%R by ring.
  rewrite sqrt_1, atan2_eighth_turn.
  pose proof PI_lower as Hlo. pose proof PI_upper as Hhi.
  rewrite Rabs_Ropp, Rabs_pos_eq by lra.
  apply (between_ties _ 45). unfold tie_margin. lra.
Qed.

Lemma roll_pitch_formula_witness :
  roll_pitch demo_event =
    Ok (py_round
          (Rabs (atan2 (real_of (VFloat 1)) (real_of (VFloat 0))) * (573 / 10)),
        py_round
          (Rabs (atan2 (- real_of (VFloat 1))
                   (sqrt (real_of (VFloat 1) * real_of (VFloat 1)
                          + real_of (VFloat 0) * real_of (VFloat 0))))
           * (573 / 10))).
Proof.
  refine (proj1 (roll_pitch_formula scan_all demo_event
                   (VFloat 1) (VFloat 0) (VFloat 1) 4000
                   _ _ _ _ _ _ _ _ _ _ unit_roll_angle unit_pitch_angle));
    vm_compute; reflexivity.
Defined.

Lemma boolean_axis_roll_pitch : roll_pitch boolean_axis_event = Ok (90%Z, 45%Z).
Proof.
  rewrite (roll_pitch_bool boolean_axis_event "accl_x" true);
    [| repeat constructor | vm_compute; reflexivity].
  rewrite (roll_pitch_json _ (VInt 1) (VFloat 0) (VFloat 1));
    try (vm_compute; reflexivity).
  unfold real_of. cbn [num_of]. change (inject_Z 1) with 1%Q.
  rewrite RMicromega.Q2R_0, RMicromega.Q2R_1.
  replace (1 * 1 + 0 * 0)%R with 1%R by ring. rewrite sqrt_1.
  change (py_round (Rabs (atan2 1 0) * deg)) with (to_degrees (atan2 1 0)).
  change (py_round (Rabs (atan2 (Ropp 1) 1) * deg))
    with (to_degrees (atan2 (Ropp 1) 1)).
  by rewrite to_degrees_quarter_turn, to_degrees_eighth_turn.
Qed.

(** A JSON [true] for [accl_x] is a field that is not numeric, and yet the
    angle computation does not fail: with status [-1] the entry is
    inserted. *)
Lemma boolean_axis_is_written :
  boolean_axis_event !! "accl_x" = Some (VBool true) /\
  json_number (VBool true) = false /\
  boolean_axis_event !! "status" = Some (VInt (-1)) /\
  roll_pitch boolean_axis_event = Ok (90%Z, 45%Z) /\
  entries_table demo_store !! "e4" = None /\
  lambda_handler scan_all boolean_axis_event 4000 demo_store =
    (Ok tt,
     Store (<["e4" := list_to_map
                        [("entryUUID", AS "e4"); ("status", AN (-1));
                         ("deviceID", AS "D1"); ("createdDate", AN 4000)]]>
              (entries_table demo_store))
           (devices_table demo_store)).
Proof.
  split; [vm_compute; reflexivity |]. split; [reflexivity |].
  split; [vm_compute; reflexivity |].
  split; [exact boolean_axis_roll_pitch |].
  split; [vm_compute; reflexivity |].
  rewrite (lambda_handler_eq scan_all _ _ _ _ _ boolean_axis_roll_pitch).
  vm_compute. reflexivity.
Qed.

Lemma malformed_axes_fail_before_any_write_witness :
  exists e,
    roll_pitch broken_event = Raise e /\
    lambda_handler scan_all broken_event 4000 demo_store = (Raise e, demo_store) /\
    (within_limits broken_event = true -> e = KeyError \/ e = TypeError).
Proof.
  apply (malformed_axes_fail_before_any_write scan_all broken_event "accl_x"
           4000 demo_store).
  - repeat constructor.
  - vm_compute. reflexivity.
Defined.

(** The scenario's event delivered a second time, at time 5000: the entry
    that the table held under [e4], written at time 4000, is replaced by
    the one written at time 5000. *)
Lemma redelivery_overwrites_entry :
  valid_ok_event demo_event "e4" "D1" 500 /\
  entries_table delivered_store !! "e4" ≫= (.!! "createdDate")
  = Some (AN 4000) /\
  exists rf,
    lambda_handler scan_all demo_event 5000 delivered_store =
      (Ok tt,
       Store (<["e4" := ok_entry demo_event "e4" "D1" 500 90 45 5000]>
                (entries_table delivered_store))
             (upserted "D1" (AN rf) 5000 (devices_table delivered_store))) /\
    <["e4" := ok_entry demo_event "e4" "D1" 500 90 45 5000]>
      (entries_table delivered_store) !! "e4" ≫= (.!! "createdDate")
    = Some (AN 5000).
Proof.
  split; [exact demo_event_valid |]. split; [vm_compute; reflexivity |].
  eexists. split.
  - rewrite (handler_on_valid scan_all _ _ _ _ _ _ _ _
               demo_event_valid demo_roll_pitch).
    evaluate_lhs. vm_compute. reflexivity.
  - vm_compute. reflexivity.
Qed.

Lemma device_upsert_frame_witness :
  exists r st',
    calculate_riskfactor scan_all demo_event 90 45 4000
      (Store (<["e4" := ok_entry demo_event "e4" "D1" 500 90 45 4000]>
                (entries_table demo_store)) (devices_table demo_store))
    = (r, st') /\
    entries_table st'
    = <["e4" := ok_entry demo_event "e4" "D1" 500 90 45 4000]>
        (entries_table demo_store) /\
    r = Ok tt /\
    exists row q,
      devices_table st' !! "D1" = Some row /\
      row !! "riskFactor" = Some (AN q) /\ (0 <= q <= 4)%Q.
Proof.
  destruct demo_aggregation as [rf Hrun].
  eexists _, _. split; [exact Hrun |].
  destruct (device_upsert_frame scan_all demo_event (VInt 0) 90 45 4000
              _ _ _ ltac:(vm_compute; reflexivity) eq_refl Hrun)
    as (Hent & _ & Hdone & _).
  split; [exact Hent |].
  apply (Hdone "D1" 500%Z); try lia; vm_compute; reflexivity.
Defined.

(** The scenario's event with a [rain] of [0.5]: the serializer refuses the
    float, the Entry Writer raises [TypeError], and [rain] is not stored,
    nor anything else. *)
Lemma float_rain_is_refused :
  float_rain_event !! "status" = Some (VInt 0) /\
  float_rain_event !! "rain" = Some (VFloat (1 # 2)) /\
  roll_pitch float_rain_event = Ok (90%Z, 45%Z) /\
  insert_entry float_rain_event 90 45 4000 demo_store
  = (Raise TypeError, demo_store) /\
  lambda_handler scan_all float_rain_event 4000 demo_store
  = (Raise TypeError, demo_store).
Proof.
  assert (Hrp : roll_pitch float_rain_event = Ok (90%Z, 45%Z))
    by (apply unit_axes_roll_pitch; vm_compute; reflexivity).
  split; [vm_compute; reflexivity |]. split; [vm_compute; reflexivity |].
  split; [exact Hrp |]. split.
  - vm_compute. reflexivity.
  - rewrite (lambda_handler_eq scan_all _ _ _ _ _ Hrp). vm_compute. reflexivity.
Qed.

(** A reading of [0.1] is stored as the decimal [0.1], which is not the
    binary value of the float. *)
Lemma axes_stored_from_repr_witness :
  ~ (binary_of (1 # 10) == 1 # 10)%Q /\
  exists uuid entry,
    tenth_event !! "entryUUID" = Some (VStr uuid) /\
    insert_entry tenth_event 90 45 4000 demo_store
    = (Ok tt, Store (<[uuid := entry]> (entries_table demo_store))
                    (devices_table demo_store)) /\
    entry !! "accl_x" = Some (AN (1 # 10)) /\
    entry !! "rain" = Some (AN 3).
Proof.
  assert (Hne : ~ (binary_of (1 # 10) == 1 # 10)%Q)
    by (vm_compute; discriminate).
  split; [exact Hne |].
  destruct (axes_stored_from_repr tenth_event (VInt 0) 90 45 4000 demo_store)
    as (Hstored & _ & Hdone);
    [vm_compute; reflexivity | reflexivity | vm_compute; reflexivity |].
  destruct Hdone as [st' Hrun];
    [vm_compute; reflexivity | vm_compute; reflexivity
    | vm_compute; reflexivity |].
  destruct (Hstored st' Hrun) as (uuid & entry & Hu & -> & Hax & Hrs).
  exists uuid, entry. split; [exact Hu |]. split; [exact Hrun |].
  apply Forall_cons_1 in Hax as [(v & q & Hv & Hq & _ & Hx & _) _].
  apply Forall_cons_1 in Hrs as [(w & Hw & _ & Hr) _].
  vm_compute in Hv. injection Hv as <-. cbn in Hq. injection Hq as <-.
  vm_compute in Hw. injection Hw as <-.
  split; [exact Hx | exact Hr].
Defined.

(** The binary value of some numerals: [0.1] and [-1/3] are not doubles,
    [0.5] and [1] are, and [1e23] is not. *)
Example binary_of_examples :
  binary_of (1 # 10) = (3602879701896397 # 36028797018963968)%Q /\
  binary_of (1 # 2) = (1 # 2)%Q /\
  binary_of 1 = 1%Q /\
  binary_of (- (1 # 3)) = (- 6004799503160661 # 18014398509481984)%Q /\
  binary_of (inject_Z (10 ^ 23)) = inject_Z 99999999999999991611392.
Proof. vm_compute. repeat split. Qed.

(** ** The further properties on the scenarios *)

Lemma epochtime_nearest_second_witness :
  epochtime 1700000000 500000 = 1700000000%Z /\
  (1700000000 <= epochtime 1700000000 500000 <= 1700000000 + 1)%Z.
Proof.
  apply (epochtime_nearest_second 1700000000 500000). lia.
Defined.

Lemma demo_event_run :
  exists rf,
    lambda_handler scan_all demo_event 4000 demo_store =
      (Ok tt,
       Store (<["e4" := ok_entry demo_event "e4" "D1" 500 90 45 4000]>
                (entries_table demo_store))
             (upserted "D1" (AN rf) 4000 (devices_table demo_store))).
Proof.
  eexists.
  rewrite (handler_on_valid scan_all _ _ _ _ _ _ _ _
             demo_event_valid demo_roll_pitch).
  evaluate_lhs. vm_compute. reflexivity.
Qed.

Lemma demo_sample_distinct : distinct_dates demo_sample.
Proof. apply dates_differ_distinct. vm_compute. reflexivity. Qed.

Lemma tilt_sign_is_lost_witness :
  roll_pitch mirrored_event = roll_pitch demo_event.
Proof.
  refine (proj1 (tilt_sign_is_lost demo_event mirrored_event
                   (VFloat 1) (VFloat 0) (VFloat 1) (VFloat (-1)) (VFloat (-1))
                   _ _ _ eq_refl eq_refl eq_refl eq_refl eq_refl _ _ _));
    vm_compute; reflexivity.
Defined.

Lemma handler_footprint_witness :
  exists st',
    lambda_handler scan_all error_event 4000 demo_store = (Ok tt, st') /\
    dom (entries_table demo_store) ⊆ dom (entries_table st') /\
    dom (devices_table demo_store) ⊆ dom (devices_table st').
Proof.
  eexists. split; [exact error_event_run |].
  exact (proj2 (proj2 (handler_footprint scan_all error_event 4000 demo_store
                         _ _ error_event_run))).
Defined.

Lemma redelivery_is_idempotent_witness :
  exists st1,
    lambda_handler scan_all demo_event 4000 demo_store = (Ok tt, st1) /\
    lambda_handler scan_all demo_event 4000 st1 = (Ok tt, st1).
Proof.
  destruct demo_event_run as [rf Hrun].
  eexists. split; [exact Hrun |].
  exact (redelivery_is_idempotent scan_all demo_event 4000 demo_store _ Hrun).
Defined.

Lemma redelivery_adds_no_entry_witness :
  exists st1 r st2,
    lambda_handler scan_all demo_event 4000 demo_store = (Ok tt, st1) /\
    lambda_handler scan_all demo_event 5000 st1 = (r, st2) /\
    dom (entries_table st2) = dom (entries_table st1).
Proof.
  destruct demo_event_run as [rf Hrun].
  eexists.
  destruct (lambda_handler scan_all demo_event 5000 _) as [r st2] eqn:Hagain.
  exists r, st2. split; [exact Hrun |]. split; [reflexivity |].
  exact (proj1 (redelivery_adds_no_entry scan_all demo_event 4000 5000
                  demo_store _ st2 r Hrun Hagain)).
Defined.

Lemma risk_independent_of_scan_order_witness :
  risk_factor_of demo_event 90 45 (rev demo_sample)
  = risk_factor_of demo_event 90 45 demo_sample.
Proof.
  refine (proj2 (risk_independent_of_scan_order demo_event 90 45
                   demo_sample (rev demo_sample) _ _ demo_sample_distinct)).
  - apply Permutation_rev.
  - vm_compute. reflexivity.
Defined.

Lemma risk_factor_at_most_4_witness :
  exists q,
    (risk_factor_of demo_event 90 45 demo_sample = Ok (VDec q) \/
     risk_factor_of demo_event 90 45 demo_sample = Ok (VInt 0) /\ q = 0%Q) /\
    (0 <= q <= 4)%Q.
Proof.
  apply (risk_factor_at_most_4 demo_event 500 90 45 demo_sample).
  - vm_compute. reflexivity.
  - lia.
  - lia.
  - lia.
  - vm_compute. reflexivity.
  - vm_compute. reflexivity.
Defined.

Lemma entry_survives_failed_aggregation_witness :
  lambda_handler scan_all demo_event 4000 stale_store
  = (Raise KeyError,
     Store (<["e4" := ok_entry demo_event "e4" "D1" 500 90 45 4000]>
              (entries_table stale_store))
           (devices_table stale_store)).
Proof.
  apply (entry_survives_failed_aggregation scan_all demo_event "e4" "D1"
           500 90 45 4000 stale_store
           (deserialize <$> list_to_map [("deviceID", AS "D1"); ("status", AN 0)])
           demo_event_valid demo_roll_pitch).
  - vm_compute. lia.
  - apply (list_elem_of_lookup_2 _ 3%nat). vm_compute. reflexivity.
  - vm_compute. reflexivity.
Defined.

Lemma limit_bounds_the_walk_witness :
  (length (scan_items scan_all (AS "D1")
             (<["e4" := ok_entry demo_event "e4" "D1" 500 90 45 4000]>
                (entries_table one_prior_store))) <= 10)%nat /\
  lambda_handler scan_all demo_event 4000 one_prior_store =
    (Ok tt,
     Store (<["e4" := ok_entry demo_event "e4" "D1" 500 90 45 4000]>
              (entries_table one_prior_store))
           (upserted "D1" (AN 0) 4000 (devices_table one_prior_store))).
Proof.
  apply (limit_bounds_the_walk scan_all demo_event "e4" "D1" 500 90 45 4000
           one_prior_store demo_event_valid demo_roll_pitch).
  vm_compute. lia.
Defined.

Lemma demo_store_tame : tame_store (entries_table demo_store).
Proof. apply tame_store_check. vm_compute. reflexivity. Qed.

Lemma entry_writer_acceptance_witness :
  exists uuid entry,
    demo_event !! "entryUUID" = Some (VStr uuid) /\
    insert_entry demo_event 90 45 4000 demo_store =
      (Ok tt, Store (<[uuid := entry]> (entries_table demo_store))
                    (devices_table demo_store)) /\
    dom entry =
      {["entryUUID"; "status"; "deviceID"; "accl_x"; "accl_y"; "accl_z";
        "gyro_x"; "gyro_y"; "gyro_z"; "roll"; "pitch"; "rain"; "soil";
        "createdDate"]}.
Proof.
  refine (proj1 (entry_writer_acceptance demo_event (VInt 0) 90 45 4000
                   demo_store _ eq_refl) _ _ _);
    vm_compute; reflexivity.
Defined.

Lemma valid_events_never_fail_witness :
  exists entry st',
    lambda_handler scan_all demo_event 4000 demo_store = (Ok tt, st') /\
    entries_table st' = <["e4" := entry]> (entries_table demo_store) /\
    tame_store (entries_table st') /\
    exists row q,
      devices_table st' !! "D1" = Some row /\
      row !! "riskFactor" = Some (AN q) /\ (0 <= q <= 4)%Q /\
      row !! "lastUpdated" = Some (AN (inject_Z 4000)).
Proof.
  apply (valid_events_never_fail scan_all demo_event "e4" "D1" 500 4000
           demo_store scan_all_sound demo_store_tame demo_event_valid).
  - vm_compute. reflexivity.
  - reflexivity.
  - lia.
Defined.

End Scenario.
